(** * The keyboard-activity monitor of [keyboard_monitor.py]

    A shallow embedding of the [KeyboardMonitor] class: the day's aggregate
    ([self.data], a JSON document held as nested Python dicts and lists), its
    persistence ([load_data], [save_data]), the capture callback ([on_press]),
    the lifecycle ([start_monitoring], [stop_monitoring]), the statistics
    ([get_stats]) and the text report ([generate_report]).

    Python raises where Rocq cannot, so every operation that can raise
    returns a [result]; the methods of the class run in a state-and-exception
    monad over the object's fields and the part of the outside world they
    touch (the log file, the standard output, the GUI event queue). *)

From Stdlib Require Import ZArith List String Ascii Bool Lia Floats.
From Stdlib Require Import DecimalString DecimalZ DecimalPos Sorted.
Import ListNotations.

Local Open Scope string_scope.
Local Open Scope list_scope.
Local Open Scope Z_scope.

Set Warnings "-register-all".

(** * Python values *)

(** What [json.load] builds and [json.dump] writes: [None], booleans,
    integers, strings, lists, and dicts with string keys.  The program writes
    no fractional number into its log, and this model has none: a log file
    holding one is outside it.  A dict keeps its keys in insertion order, and
    iteration ([items], [max]) follows that order, so a dict is an
    association list; every dict Python builds has pairwise distinct keys. *)
Inductive value : Type :=
| VNone
| VBool (b : bool)
| VInt (z : Z)
| VStr (s : string)
| VList (l : list value)
| VDict (d : list (string * value)).

Inductive exn : Type :=
| KeyError
| TypeError
| AttributeError
| ValueError
| OverflowError
| ZeroDivisionError
| IOError
| JSONDecodeError.

Inductive result (A : Type) : Type :=
| Ok (a : A)
| Raise (e : exn).
Arguments Ok {A} a.
Arguments Raise {A} e.

Definition rbind {A B : Type} (r : result A) (k : A -> result B) : result B :=
  match r with
  | Ok a => k a
  | Raise e => Raise e
  end.

(** ** Dicts as association lists *)

Section Assoc.
Context {K V : Type}.
Variable eqb : K -> K -> bool.

(** [d.get(k)]: the value stored under [k], if any. *)
Fixpoint assoc_get (d : list (K * V)) (k : K) : option V :=
  match d with
  | [] => None
  | (k', v) :: rest => if eqb k' k then Some v else assoc_get rest k
  end.

(** [d[k] = v]: an existing key keeps its place, a new one goes last. *)
Fixpoint assoc_set (d : list (K * V)) (k : K) (v : V) : list (K * V) :=
  match d with
  | [] => [(k, v)]
  | (k', v') :: rest =>
      if eqb k' k then (k', v) :: rest else (k', v') :: assoc_set rest k v
  end.

Definition assoc_mem (d : list (K * V)) (k : K) : bool :=
  match assoc_get d k with Some _ => true | None => false end.
End Assoc.

Definition dict_get (d : list (string * value)) (k : string) : option value :=
  assoc_get String.eqb d k.
Definition dict_set (d : list (string * value)) (k : string) (v : value)
  : list (string * value) :=
  assoc_set String.eqb d k v.

(** ** The operators the class applies to its data *)

(** [bool(v)], as [if self.data:] computes it. *)
Definition truthy (v : value) : bool :=
  match v with
  | VNone => false
  | VBool b => b
  | VInt z => negb (z =? 0)
  | VStr s => negb (String.eqb s "")
  | VList l => match l with [] => false | _ => true end
  | VDict d => match d with [] => false | _ => true end
  end.

(** [d[k]] with a string [k]: only a dict can be indexed by a string. *)
Definition getitem (d : value) (k : string) : result value :=
  match d with
  | VDict kv => match dict_get kv k with
                | Some v => Ok v
                | None => Raise KeyError
                end
  | _ => Raise TypeError
  end.

(** [d[k] = v] with a string [k]. *)
Definition setitem (d : value) (k : string) (v : value) : result value :=
  match d with
  | VDict kv => Ok (VDict (dict_set kv k v))
  | _ => Raise TypeError
  end.

(** [d.get(k, default)]: only dicts have the method. *)
Definition get_method (d : value) (k : string) (default : value) : result value :=
  match d with
  | VDict kv => match dict_get kv k with
                | Some v => Ok v
                | None => Ok default
                end
  | _ => Raise AttributeError
  end.

(** [l.append(x)]: only lists have the method. *)
Definition append_method (l : value) (x : value) : result value :=
  match l with
  | VList xs => Ok (VList (xs ++ [x]))
  | _ => Raise AttributeError
  end.

(** The integer a value counts as in arithmetic: [bool] is a subclass of
    [int]. *)
Definition as_int (v : value) : option Z :=
  match v with
  | VInt z => Some z
  | VBool b => Some (if b then 1 else 0)
  | _ => None
  end.

(** [v + n], [v % n] (for a positive [n]) and [v == n], [v > n] for an
    integer [n]. *)
Definition add_int (v : value) (n : Z) : result value :=
  match as_int v with
  | Some z => Ok (VInt (z + n))
  | None => Raise TypeError
  end.

Definition mod_int (v : value) (n : Z) : result value :=
  match as_int v with
  | Some z => Ok (VInt (z mod n))
  | None => Raise TypeError
  end.

Definition eq_int (v : value) (n : Z) : bool :=
  match as_int v with
  | Some z => z =? n
  | None => false
  end.

Definition gt_int (v : value) (n : Z) : result bool :=
  match as_int v with
  | Some z => Ok (n <? z)
  | None => Raise TypeError
  end.

(** [k in data], with a string [k]: a key of a dict, an element of a list, a
    substring of a string; any other [data] is not iterable. *)
Fixpoint is_substring (k s : string) : bool :=
  orb (String.prefix k s)
      match s with
      | EmptyString => false
      | String _ rest => is_substring k rest
      end.

Definition contains (data : value) (k : string) : result bool :=
  match data with
  | VDict kv => Ok (assoc_mem String.eqb kv k)
  | VList l =>
      Ok (existsb (fun x => match x with VStr s => String.eqb s k | _ => false end) l)
  | VStr s => Ok (is_substring k s)
  | _ => Raise TypeError
  end.

(** [all(k in data for k in keys)]: stops at the first [False], and at the
    first exception. *)
Fixpoint all_in (data : value) (keys : list string) : result bool :=
  match keys with
  | [] => Ok true
  | k :: rest =>
      rbind (contains data k) (fun b => if b then all_in data rest else Ok false)
  end.

(** * Text and time *)

(** [str(n)] for an integer [n]. *)
Definition str_of_int (n : Z) : string :=
  NilZero.string_of_int (Z.to_int n).

Fixpoint zeros (n : nat) : string :=
  match n with
  | O => ""
  | S n' => String "0" (zeros n')
  end.

(** [f"{n:0wd}"]: the decimal digits of [n], padded on the left with zeros
    to [w] characters, the sign of a negative [n] counted in. *)
Definition fmt_0d (w : nat) (n : Z) : string :=
  if n <? 0 then
    let ds := str_of_int (- n) in
    ("-" ++ zeros (w - 1 - String.length ds) ++ ds)%string
  else
    let ds := str_of_int n in
    (zeros (w - String.length ds) ++ ds)%string.

Definition digit_of_ascii (c : ascii) : option Z :=
  let n := Z.of_N (N_of_ascii c) in
  if (48 <=? n) && (n <=? 57) then Some (n - 48) else None.

(** The number a string of decimal digits writes; [None] when the string is
    empty or holds another character. *)
Fixpoint digits_value (acc : Z) (s : string) : option Z :=
  match s with
  | EmptyString => Some acc
  | String c rest =>
      match digit_of_ascii c with
      | Some d => digits_value (10 * acc + d) rest
      | None => None
      end
  end.

Definition number_of_digits (s : string) : option Z :=
  match s with
  | EmptyString => None
  | _ => digits_value 0 s
  end.

(** ** [int(s)] *)

(** The characters [int] skips around a number. *)
Definition is_space (c : ascii) : bool :=
  let n := Z.of_N (N_of_ascii c) in
  ((9 <=? n) && (n <=? 13)) || ((28 <=? n) && (n <=? 32)).

Fixpoint lstrip (s : string) : string :=
  match s with
  | String c rest => if is_space c then lstrip rest else s
  | EmptyString => s
  end.

Fixpoint rev_string (acc s : string) : string :=
  match s with
  | EmptyString => acc
  | String c rest => rev_string (String c acc) rest
  end.

Definition strip (s : string) : string :=
  rev_string "" (lstrip (rev_string "" (lstrip s))).

(** Digits in which single underscores may separate two digits.
    [after_digit] tells whether the character before was a digit. *)
Fixpoint grouped_digits (acc : Z) (after_digit : bool) (s : string) : option Z :=
  match s with
  | EmptyString => if after_digit then Some acc else None
  | String c rest =>
      match digit_of_ascii c with
      | Some d => grouped_digits (10 * acc + d) true rest
      | None =>
          if Ascii.eqb c "_" && after_digit
          then match rest with
               | EmptyString => None
               | String c' _ =>
                   match digit_of_ascii c' with
                   | Some _ => grouped_digits acc false rest
                   | None => None
                   end
               end
          else None
      end
  end.

(** [int(s)] for a string of ASCII characters: white space around, an
    optional sign, decimal digits; [ValueError] otherwise. *)
Definition int_of_str (s : string) : result Z :=
  let body := strip s in
  let '(neg, ds) :=
    match body with
    | String "-" rest => (true, rest)
    | String "+" rest => (false, rest)
    | _ => (false, body)
    end in
  match grouped_digits 0 false ds with
  | Some n => Ok (if neg then - n else n)
  | None => Raise ValueError
  end.

(** ** [datetime] *)

(** A naive [datetime.datetime], as [datetime.now()] returns it. *)
Record datetime : Type := {
  year : Z;
  month : Z;
  day : Z;
  hour : Z;
  minute : Z;
  second : Z;
  microsecond : Z
}.

Definition is_leap (y : Z) : bool :=
  ((y mod 4 =? 0) && negb (y mod 100 =? 0)) || (y mod 400 =? 0).

Definition days_in_month (y m : Z) : Z :=
  if m =? 2 then (if is_leap y then 29 else 28)
  else if (m =? 4) || (m =? 6) || (m =? 9) || (m =? 11) then 30
  else 31.

Definition valid_datetime (d : datetime) : bool :=
  (1 <=? year d) && (year d <=? 9999) &&
  (1 <=? month d) && (month d <=? 12) &&
  (1 <=? day d) && (day d <=? days_in_month (year d) (month d)) &&
  (0 <=? hour d) && (hour d <? 24) &&
  (0 <=? minute d) && (minute d <? 60) &&
  (0 <=? second d) && (second d <? 60) &&
  (0 <=? microsecond d) && (microsecond d <? 1000000).

(** [d.isoformat()]: [YYYY-MM-DDTHH:MM:SS], and [.ffffff] after it when the
    microseconds are not zero. *)
Definition isoformat (d : datetime) : string :=
  let fraction :=
    if microsecond d =? 0 then "" else ("." ++ fmt_0d 6 (microsecond d))%string in
  (fmt_0d 4 (year d) ++ "-" ++ fmt_0d 2 (month d) ++ "-" ++ fmt_0d 2 (day d)
   ++ "T" ++ fmt_0d 2 (hour d) ++ ":" ++ fmt_0d 2 (minute d) ++ ":"
   ++ fmt_0d 2 (second d) ++ fraction)%string.

Definition field (s : string) (from len : nat) : option Z :=
  number_of_digits (substring from len s).

Definition char_is (s : string) (at_ : nat) (c : ascii) : bool :=
  match get at_ s with
  | Some c' => Ascii.eqb c' c
  | None => false
  end.

(** [datetime.fromisoformat(s)] on the strings [isoformat] writes for a naive
    time (any one character may stand for the [T]); [ValueError] on the
    rest. *)
Definition fromisoformat (s : string) : result datetime :=
  let n := String.length s in
  if negb (Nat.eqb n 19 || Nat.eqb n 26) then Raise ValueError
  else if negb (char_is s 4 "-" && char_is s 7 "-" && char_is s 13 ":" && char_is s 16 ":")
  then Raise ValueError
  else if Nat.eqb n 26 && negb (char_is s 19 ".") then Raise ValueError
  else
    match field s 0 4, field s 5 2, field s 8 2,
          field s 11 2, field s 14 2, field s 17 2,
          (if Nat.eqb n 26 then field s 20 6 else Some 0) with
    | Some y, Some mo, Some d, Some h, Some mi, Some sec, Some us =>
        let t := {| year := y; month := mo; day := d; hour := h;
                    minute := mi; second := sec; microsecond := us |} in
        if valid_datetime t then Ok t else Raise ValueError
    | _, _, _, _, _, _, _ => Raise ValueError
    end.

(** Days from 0001-01-01, that day being day 1 ([date.toordinal]). *)
Definition days_before_year (y : Z) : Z :=
  let p := y - 1 in p * 365 + p / 4 - p / 100 + p / 400.

Fixpoint days_before_month_nat (y : Z) (m : nat) : Z :=
  match m with
  | O => 0
  | S m' => days_before_month_nat y m' + days_in_month y (Z.of_nat m)
  end.

Definition toordinal (d : datetime) : Z :=
  days_before_year (year d)
  + days_before_month_nat (year d) (Z.to_nat (month d - 1))
  + day d.

(** The microseconds from the start of day 0 to [d]. *)
Definition to_microseconds (d : datetime) : Z :=
  (((toordinal d * 24 + hour d) * 60 + minute d) * 60 + second d) * 1000000
  + microsecond d.

(** [(a - b)] as a [timedelta], held as its whole number of microseconds
    ([days * 86400 * 10**6 + seconds * 10**6 + microseconds]). *)
Definition datetime_sub (a b : datetime) : Z :=
  to_microseconds a - to_microseconds b.

(** ** Floating point *)

(** Python's [float] is the binary64 of the primitive [float] here. *)

(** [float(n)] for an integer: the nearest float, ties to even;
    [OverflowError] when [n] is too large. *)
Definition float_of_Z (n : Z) : result float :=
  let f := binary_normalize prec emax n 0 false in
  match f with
  | S754_infinity _ => Raise OverflowError
  | _ => Ok (SF2Prim f)
  end.

(** [a / b] for integers, [b] positive: the float nearest the exact
    quotient, as [int.__truediv__] computes it. *)
Definition int_truediv (a b : Z) : float :=
  match a, b with
  | Z0, _ => 0%float
  | Zpos p, Zpos q => SF2Prim (SFdiv prec emax (S754_finite false p 0) (S754_finite false q 0))
  | Zneg p, Zpos q => SF2Prim (SFdiv prec emax (S754_finite true p 0) (S754_finite false q 0))
  | _, _ => PrimFloat.nan
  end.

(** [timedelta.total_seconds()]: the microseconds divided by [10**6]. *)
Definition total_seconds (us : Z) : float :=
  int_truediv us 1000000.

(** ** Comparing values *)

(** [a == b]. *)
Fixpoint py_eq (a b : value) {struct a} : bool :=
  match a, b with
  | VNone, VNone => true
  | VStr s, VStr t => String.eqb s t
  | VList l, VList m =>
      (fix eq_list (l m : list value) {struct l} : bool :=
         match l, m with
         | [], [] => true
         | x :: l', y :: m' => py_eq x y && eq_list l' m'
         | _, _ => false
         end) l m
  | VDict d, VDict e =>
      Nat.eqb (List.length d) (List.length e) &&
      (fix eq_items (d : list (string * value)) {struct d} : bool :=
         match d with
         | [] => true
         | (k, v) :: d' =>
             match dict_get e k with
             | Some w => py_eq v w
             | None => false
             end && eq_items d'
         end) d
  | _, _ =>
      match as_int a, as_int b with
      | Some x, Some y => x =? y
      | _, _ => false
      end
  end.

(** [a > b]: numbers by value, strings and lists in lexicographic order;
    [TypeError] between any other two values. *)
Fixpoint py_gt (a b : value) {struct a} : result bool :=
  match a, b with
  | VStr s, VStr t => Ok (String.ltb t s)
  | VList l, VList m =>
      (fix gt_list (l m : list value) {struct l} : result bool :=
         match l, m with
         | [], _ => Ok false
         | _ :: _, [] => Ok true
         | x :: l', y :: m' => if py_eq x y then gt_list l' m' else py_gt x y
         end) l m
  | _, _ =>
      match as_int a, as_int b with
      | Some x, Some y => Ok (y <? x)
      | _, _ => Raise TypeError
      end
  end.

(** * The monitor and its world *)

(** The log file as [load_data] finds it: absent, present but impossible to
    read, readable but not JSON, or a JSON document. *)
Inductive file : Type :=
| NoFile
| Unreadable
| Garbage
| Document (v : value).

(** [self.root]: [None], or a Tk window that exists or was destroyed. *)
Inductive window : Type :=
| NoRoot
| Root (winfo_exists : bool).

(** The argument [pynput] passes to the callback. *)
Inductive key : Type :=
| KeyCode (char : string)
| SpecialKey (name : string).

(** A number a report prints: the statistics mix [int] and [float]. *)
Inductive number : Type :=
| NInt (z : Z)
| NFloat (f : float).

(** Text written to a file.  A float printed with [:.nf] and the [repr] of
    a list or dict stay symbolic; the rest is characters. *)
Inductive piece : Type :=
| Chars (s : string)
| Fixed (digits : nat) (x : number)
| Repr (v : value).

Definition text : Type := list piece.

(** Joining the parts of an f-string: neighbouring characters merge. *)
Fixpoint cat (a b : text) : text :=
  match a with
  | [] => b
  | [Chars s] => match b with
                 | Chars t :: b' => Chars (s ++ t)%string :: b'
                 | _ => Chars s :: b
                 end
  | p :: a' => p :: cat a' b
  end.

Definition cats (parts : list text) : text :=
  fold_right cat [] parts.

Definition lit (s : string) : text := [Chars s].

(** [f"{v}"]: [str(v)]. *)
Definition str_of_value (v : value) : text :=
  match v with
  | VNone => lit "None"
  | VBool true => lit "True"
  | VBool false => lit "False"
  | VInt z => lit (str_of_int z)
  | VStr s => lit s
  | _ => [Repr v]
  end.

Inductive message : Type :=
| JSONErrorMsg
| LoadErrorMsg
| DataSavedMsg
| WriteErrorMsg
| UnexpectedSaveErrorMsg
| MonitoringStartedMsg
| MonitoringStoppedMsg
| ReportGeneratedMsg (path : string).

(** What the monitor does to the world, in order.  [Called_save_data] marks
    each entry into [save_data]. *)
Inductive effect : Type :=
| Printed (m : message)
| Called_save_data
| Generated_UpdateStats
| Listener_started
| Listener_stopped
| Opened (path : string)
| Wrote (path : string) (t : text).

(** The fields of a [KeyboardMonitor], and below them the world it acts on:
    what the log file holds, which paths can be opened for writing, and the
    effects so far. *)
Record KeyboardMonitor : Type := {
  log_dir : string;
  today : string;
  log_file : string;
  data : value;
  listener : bool;
  is_running : bool;
  start_time : option datetime;
  root : window;
  disk : file;
  writable : string -> bool;
  trace : list effect
}.

Definition set_data (v : value) (s : KeyboardMonitor) : KeyboardMonitor :=
  {| log_dir := log_dir s; today := today s; log_file := log_file s;
     data := v; listener := listener s; is_running := is_running s;
     start_time := start_time s; root := root s; disk := disk s;
     writable := writable s; trace := trace s |}.

Definition set_listener (b : bool) (s : KeyboardMonitor) : KeyboardMonitor :=
  {| log_dir := log_dir s; today := today s; log_file := log_file s;
     data := data s; listener := b; is_running := is_running s;
     start_time := start_time s; root := root s; disk := disk s;
     writable := writable s; trace := trace s |}.

Definition set_is_running (b : bool) (s : KeyboardMonitor) : KeyboardMonitor :=
  {| log_dir := log_dir s; today := today s; log_file := log_file s;
     data := data s; listener := listener s; is_running := b;
     start_time := start_time s; root := root s; disk := disk s;
     writable := writable s; trace := trace s |}.

Definition set_start_time (t : option datetime) (s : KeyboardMonitor) : KeyboardMonitor :=
  {| log_dir := log_dir s; today := today s; log_file := log_file s;
     data := data s; listener := listener s; is_running := is_running s;
     start_time := t; root := root s; disk := disk s;
     writable := writable s; trace := trace s |}.

Definition set_disk (f : file) (s : KeyboardMonitor) : KeyboardMonitor :=
  {| log_dir := log_dir s; today := today s; log_file := log_file s;
     data := data s; listener := listener s; is_running := is_running s;
     start_time := start_time s; root := root s; disk := f;
     writable := writable s; trace := trace s |}.

Definition add_effect (e : effect) (s : KeyboardMonitor) : KeyboardMonitor :=
  {| log_dir := log_dir s; today := today s; log_file := log_file s;
     data := data s; listener := listener s; is_running := is_running s;
     start_time := start_time s; root := root s; disk := disk s;
     writable := writable s; trace := trace s ++ [e] |}.

(** ** State and exceptions *)

(** A method either returns or raises, and leaves the monitor in a new
    state either way: what it changed before raising stays changed. *)
Definition M (A : Type) : Type := KeyboardMonitor -> result A * KeyboardMonitor.

Definition ret {A : Type} (a : A) : M A := fun s => (Ok a, s).

Definition bind {A B : Type} (m : M A) (k : A -> M B) : M B :=
  fun s => match m s with
           | (Ok a, s') => k a s'
           | (Raise e, s') => (Raise e, s')
           end.

Definition raise {A : Type} (e : exn) : M A := fun s => (Raise e, s).

Definition lift {A : Type} (r : result A) : M A := fun s => (r, s).

Definition gets {A : Type} (f : KeyboardMonitor -> A) : M A := fun s => (Ok (f s), s).

Definition modify (f : KeyboardMonitor -> KeyboardMonitor) : M unit :=
  fun s => (Ok tt, f s).

Definition emit (e : effect) : M unit := modify (add_effect e).

(** [try: body except Exception as e: handler(e)]. *)
Definition try_except {A : Type} (body : M A) (handler : exn -> M A) : M A :=
  fun s => match body s with
           | (Raise e, s') => handler e s'
           | r => r
           end.

Declare Scope monitor_scope.
Delimit Scope monitor_scope with monitor.
Notation "x <- m ;; k" := (bind m (fun x => k))
  (at level 61, m at next level, right associativity) : monitor_scope.
Notation "m ;;; k" := (bind m (fun _ => k))
  (at level 61, right associativity) : monitor_scope.
Local Open Scope monitor_scope.

Definition exec {A : Type} (m : M A) (s : KeyboardMonitor) : KeyboardMonitor := snd (m s).
Definition eval {A : Type} (m : M A) (s : KeyboardMonitor) : result A := fst (m s).

(** * The methods of [KeyboardMonitor] *)

Definition range (n : nat) : list Z := map Z.of_nat (seq 0 n).

Definition required_keys : list string :=
  ["hourly_counts"; "total_count"; "start_time"; "keystrokes"].

(** The new data structure [load_data] creates, [now] being the reading of
    the clock. *)
Definition fresh_data (now : datetime) : value :=
  VDict [ ("hourly_counts", VDict (map (fun i => (str_of_int i, VInt 0)) (range 24)));
          ("total_count", VInt 0);
          ("start_time", VStr (isoformat now));
          ("keystrokes", VList []) ].

(** [os.path.exists(self.log_file)]. *)
Definition file_exists (f : file) : bool :=
  match f with
  | NoFile => false
  | _ => true
  end.

(** [with open(self.log_file, 'r') as f: data = json.load(f)]. *)
Definition read_json : M value :=
  f <- gets disk ;;
  match f with
  | Document v => ret v
  | Garbage => raise JSONDecodeError
  | Unreadable => raise IOError
  | NoFile => raise IOError
  end.

(** [load_data]: the body of the [try] yields [Some data] where the source
    returns [data], and [None] where control falls through to the new data
    structure. *)
Definition load_data (now : datetime) : M value :=
  f <- gets disk ;;
  found <-
    (if file_exists f then
       try_except
         (data <- read_json ;;
          valid <- lift (all_in data required_keys) ;;
          ret (if valid then Some data else None))
         (fun e =>
            match e with
            | JSONDecodeError => emit (Printed JSONErrorMsg) ;;; ret None
            | _ => emit (Printed LoadErrorMsg) ;;; ret None
            end)
     else ret None) ;;
  match found with
  | Some data => ret data
  | None => ret (fresh_data now)
  end.

(** [os.path.join(a, b)] for a relative [b]. *)
Definition ends_with_slash (a : string) : bool :=
  match rev_string "" a with
  | String c _ => Ascii.eqb c "/"
  | EmptyString => false
  end.

Definition path_join (a b : string) : string :=
  if String.eqb a "" then b
  else if ends_with_slash a then (a ++ b)%string
  else (a ++ "/" ++ b)%string.

(** [__init__]: the object right after construction, in a world where the
    log file holds [f], [w] tells which paths can be written, the date is
    [date] and the clock reads [now]. *)
Definition init (dir date : string) (f : file) (w : string -> bool) (now : datetime)
  : KeyboardMonitor :=
  let s0 := {| log_dir := dir; today := date;
               log_file := path_join dir ("keyboard_log_" ++ date ++ ".json")%string;
               data := VNone; listener := false; is_running := false;
               start_time := None; root := NoRoot; disk := f;
               writable := w; trace := [] |} in
  match load_data now s0 with
  | (Ok d, s1) => set_data d s1
  | (Raise _, s1) => s1
  end.

(** [with open(self.log_file, 'w') as f: json.dump(self.data, f, indent=2)]. *)
Definition write_json (d : value) : M unit :=
  w <- gets writable ;;
  path <- gets log_file ;;
  if w path then modify (set_disk (Document d)) else raise IOError.

Definition save_data : M unit :=
  emit Called_save_data ;;;
  d <- gets data ;;
  if truthy d then
    try_except
      (write_json d ;;; emit (Printed DataSavedMsg))
      (fun e =>
         match e with
         | IOError => emit (Printed WriteErrorMsg)
         | _ => emit (Printed UnexpectedSaveErrorMsg)
         end)
  else ret tt.

(** [self.root and self.root.winfo_exists()]. *)
Definition gui_alive (w : window) : bool :=
  match w with
  | NoRoot => false
  | Root e => e
  end.

(** [on_press(self, key)], the clock reading [current_time]. *)
Definition on_press (k : key) (current_time : datetime) : M unit :=
  let hour_key := str_of_int (hour current_time) in
  (* self.data["total_count"] += 1 *)
  d <- gets data ;;
  total <- lift (getitem d "total_count") ;;
  total' <- lift (add_int total 1) ;;
  d' <- lift (setitem d "total_count" total') ;;
  modify (set_data d') ;;;
  (* self.data["hourly_counts"][str(hour)] =
       self.data["hourly_counts"].get(str(hour), 0) + 1 *)
  d <- gets data ;;
  counts <- lift (getitem d "hourly_counts") ;;
  old <- lift (get_method counts hour_key (VInt 0)) ;;
  new <- lift (add_int old 1) ;;
  counts <- lift (getitem d "hourly_counts") ;;
  counts' <- lift (setitem counts hour_key new) ;;
  d' <- lift (setitem d "hourly_counts" counts') ;;
  modify (set_data d') ;;;
  (* self.data["keystrokes"].append(current_time.isoformat()) *)
  d <- gets data ;;
  stamps <- lift (getitem d "keystrokes") ;;
  stamps' <- lift (append_method stamps (VStr (isoformat current_time))) ;;
  d' <- lift (setitem d "keystrokes" stamps') ;;
  modify (set_data d') ;;;
  (* if self.data["total_count"] % 100 == 0: *)
  d <- gets data ;;
  total <- lift (getitem d "total_count") ;;
  r <- lift (mod_int total 100) ;;
  if eq_int r 0 then
    save_data ;;;
    w <- gets root ;;
    if gui_alive w then emit Generated_UpdateStats else ret tt
  else ret tt.

(** [start_monitoring], the clock reading [now]. *)
Definition start_monitoring (now : datetime) : M unit :=
  running <- gets is_running ;;
  if negb running then
    modify (set_is_running true) ;;;
    modify (set_start_time (Some now)) ;;;
    modify (set_listener true) ;;;
    emit Listener_started ;;;
    emit (Printed MonitoringStartedMsg)
  else ret tt.

Definition stop_monitoring : M unit :=
  running <- gets is_running ;;
  if running then
    modify (set_is_running false) ;;;
    l <- gets listener ;;
    (if l then emit Listener_stopped ;;; modify (set_listener false) else ret tt) ;;;
    save_data ;;;
    emit (Printed MonitoringStoppedMsg)
  else ret tt.

(** ** Statistics *)

(** The dict [get_stats] returns, one field per key. *)
Record stats : Type := {
  total_keystrokes : value;
  hourly_counts : list (Z * value);
  peak_hour : Z * value;
  duration_hours : float;
  keystrokes_per_minute : number
}.

(** [d.items()]: only dicts have the method. *)
Definition items_method (d : value) : result (list (string * value)) :=
  match d with
  | VDict kv => Ok kv
  | _ => Raise AttributeError
  end.

(** [{int(h): c for h, c in items}]: built key by key, a key met again
    keeping its first place and taking the later count. *)
Fixpoint int_keyed (acc : list (Z * value)) (items : list (string * value))
  : result (list (Z * value)) :=
  match items with
  | [] => Ok acc
  | (h, c) :: rest =>
      rbind (int_of_str h) (fun n => int_keyed (assoc_set Z.eqb acc n c) rest)
  end.

(** [max(items, key=lambda x: x[1])] on a non-empty sequence: the running
    maximum starts at the first item and moves only to an item whose count
    is greater. *)
Fixpoint max_by_count (best : Z * value) (items : list (Z * value))
  : result (Z * value) :=
  match items with
  | [] => Ok best
  | item :: rest =>
      rbind (py_gt (snd item) (snd best))
            (fun greater => max_by_count (if greater then item else best) rest)
  end.

Definition find_peak (counts : list (Z * value)) : result (Z * value) :=
  match counts with
  | [] => Ok (0, VInt 0)
  | first :: rest => max_by_count first rest
  end.

(** [datetime.fromisoformat(v)]: the argument must be a string. *)
Definition parse_start_time (v : value) : result datetime :=
  match v with
  | VStr s => fromisoformat s
  | _ => Raise TypeError
  end.

(** [total / (duration * 60)] for the stored total, an integer: Python
    converts it to a float and divides. *)
Definition rate (total : value) (duration : float) : result number :=
  match as_int total with
  | None => Raise TypeError
  | Some n =>
      rbind (float_of_Z n) (fun x =>
        let minutes := PrimFloat.mul duration 60%float in
        if PrimFloat.eqb minutes 0%float then Raise ZeroDivisionError
        else Ok (NFloat (PrimFloat.div x minutes)))
  end.

(** [get_stats(self)], the clock reading [now]. *)
Definition get_stats (self : KeyboardMonitor) (now : datetime) : result stats :=
  rbind (getitem (data self) "total_count") (fun total =>
  rbind (getitem (data self) "hourly_counts") (fun hc =>
  rbind (items_method hc) (fun items =>
  rbind (int_keyed [] items) (fun counts =>
  rbind (find_peak counts) (fun peak =>
  rbind (getitem (data self) "start_time") (fun st =>
  rbind (parse_start_time st) (fun start =>
  let duration :=
    PrimFloat.div (total_seconds (datetime_sub now start)) 3600%float in
  rbind (if PrimFloat.ltb 0%float duration
         then rate total duration
         else Ok (NInt 0)) (fun kpm =>
  Ok {| total_keystrokes := total;
        hourly_counts := counts;
        peak_hour := peak;
        duration_hours := duration;
        keystrokes_per_minute := kpm |})))))))).

(** ** The report *)

Definition newline : string := String (ascii_of_nat 10) "".

(** [f"{h:02d}:00 - {h+1:02d}:00"]. *)
Definition hour_range (h : Z) : string :=
  (fmt_0d 2 h ++ ":00 - " ++ fmt_0d 2 (h + 1) ++ ":00")%string.

(** One line of the hourly breakdown. *)
Definition breakdown_line (counts : list (Z * value)) (h : Z) : text :=
  let count := match assoc_get Z.eqb counts h with
               | Some c => c
               | None => VInt 0
               end in
  cats [lit (hour_range h ++ ": "); str_of_value count;
        lit (" keystrokes" ++ newline)].

(** The text of the peak line, and [TypeError] when the peak count does not
    compare with [0]. *)
Definition peak_line (peak : Z * value) : result text :=
  let '(peak_hour, peak_count) := peak in
  rbind (gt_int peak_count 0) (fun active =>
  let peak_time := if active then hour_range peak_hour else "N/A" in
  Ok (cats [lit ("Peak Activity Hour: " ++ peak_time ++ " ("); str_of_value peak_count;
            lit (" keystrokes)" ++ newline ++ newline)])).

(** [if not output_file: output_file = os.path.join(self.log_dir, ...)]:
    the path given, or the default one when none (or an empty one) is. *)
Definition report_path (self : KeyboardMonitor) (output_file : option string) : string :=
  let default :=
    path_join (log_dir self) ("keyboard_report_" ++ today self ++ ".txt")%string in
  match output_file with
  | Some p => if String.eqb p "" then default else p
  | None => default
  end.

Fixpoint write_all (path : string) (lines : list text) : M unit :=
  match lines with
  | [] => ret tt
  | l :: rest => emit (Wrote path l) ;;; write_all path rest
  end.

(** [generate_report(self, output_file)], the clock reading [now]; an
    absent [output_file] is [None]. *)
Definition generate_report (output_file : option string) (now : datetime) : M string :=
  self <- gets (fun s => s) ;;
  st <- lift (get_stats self now) ;;
  let path := report_path self output_file in
  (if writable self path then emit (Opened path) else raise IOError) ;;;
  emit (Wrote path (lit ("===== Keyboard Activity Report =====" ++ newline ++ newline))) ;;;
  emit (Wrote path (lit ("Date: " ++ today self ++ newline))) ;;;
  started <- lift (getitem (data self) "start_time") ;;
  emit (Wrote path (cats [lit "Monitoring Start Time: "; str_of_value started; lit newline])) ;;;
  emit (Wrote path (cats [lit "Monitoring Duration: ";
                          [Fixed 2 (NFloat (duration_hours st))];
                          lit (" hours" ++ newline ++ newline)])) ;;;
  emit (Wrote path (lit ("--- Statistics ---" ++ newline))) ;;;
  emit (Wrote path (cats [lit "Total Keystrokes: "; str_of_value (total_keystrokes st);
                          lit newline])) ;;;
  emit (Wrote path (cats [lit "Average Keystrokes Per Minute: ";
                          [Fixed 1 (keystrokes_per_minute st)]; lit newline])) ;;;
  peak <- lift (peak_line (peak_hour st)) ;;
  emit (Wrote path peak) ;;;
  emit (Wrote path (lit ("--- Hourly Breakdown ---" ++ newline))) ;;;
  write_all path (map (breakdown_line (hourly_counts st)) (range 24)) ;;;
  emit (Printed (ReportGeneratedMsg path)) ;;;
  ret path.

(** * Properties *)

(** ** Association lists *)

Section AssocFacts.
Context {K V : Type}.
Variable eqb : K -> K -> bool.
Hypothesis eqb_spec : forall a b, eqb a b = true <-> a = b.

Lemma assoc_eqb_refl (k : K) : eqb k k = true.
Proof. apply eqb_spec; reflexivity. Qed.

Lemma assoc_eqb_neq (a b : K) : a <> b -> eqb a b = false.
Proof.
  intros Hne. destruct (eqb a b) eqn:E; [|reflexivity].
  apply eqb_spec in E. contradiction.
Qed.

Lemma assoc_get_set_same (d : list (K * V)) (k : K) (v : V) :
  assoc_get eqb (assoc_set eqb d k v) k = Some v.
Proof.
  induction d as [|[k' v'] d IH]; simpl.
  - now rewrite assoc_eqb_refl.
  - destruct (eqb k' k) eqn:E; simpl; rewrite E; [reflexivity | exact IH].
Qed.

Lemma assoc_get_set_other (d : list (K * V)) (k k' : K) (v : V) :
  k <> k' ->
  assoc_get eqb (assoc_set eqb d k v) k' = assoc_get eqb d k'.
Proof.
  intros Hne. induction d as [|[k0 v0] d IH]; simpl.
  - now rewrite (assoc_eqb_neq k k').
  - destruct (eqb k0 k) eqn:E; simpl.
    + apply eqb_spec in E; subst k0.
      now rewrite (assoc_eqb_neq k k').
    + now rewrite IH.
Qed.


Lemma assoc_set_keys_absent (d : list (K * V)) (k : K) (v : V) :
  assoc_get eqb d k = None ->
  map fst (assoc_set eqb d k v) = map fst d ++ [k].
Proof.
  induction d as [|[k0 v0] d IH]; simpl; [reflexivity|].
  destruct (eqb k0 k) eqn:E; simpl; [discriminate|].
  intros H. now rewrite IH.
Qed.
End AssocFacts.

Lemma dict_get_set_same (d : list (string * value)) (k : string) (v : value) :
  dict_get (dict_set d k v) k = Some v.
Proof. apply assoc_get_set_same, String.eqb_eq. Qed.

Lemma dict_get_set_other (d : list (string * value)) (k k' : string) (v : value) :
  k <> k' -> dict_get (dict_set d k v) k' = dict_get d k'.
Proof. apply assoc_get_set_other, String.eqb_eq. Qed.

(** ** The monad, one step at a time *)

Lemma bind_gets {A B : Type} (f : KeyboardMonitor -> A) (k : A -> M B) s :
  bind (gets f) k s = k (f s) s.
Proof. reflexivity. Qed.

Lemma bind_lift_ok {A B : Type} (a : A) (k : A -> M B) s :
  bind (lift (Ok a)) k s = k a s.
Proof. reflexivity. Qed.

Lemma bind_modify {B : Type} (f : KeyboardMonitor -> KeyboardMonitor) (k : unit -> M B) s :
  bind (modify f) k s = k tt (f s).
Proof. reflexivity. Qed.

Lemma bind_emit {B : Type} (e : effect) (k : unit -> M B) s :
  bind (emit e) k s = k tt (add_effect e s).
Proof. reflexivity. Qed.

Lemma bind_ret {A B : Type} (a : A) (k : A -> M B) s :
  bind (ret a) k s = k a s.
Proof. reflexivity. Qed.

(** ** [save_data] and [on_press] *)

(** The state [save_data] leaves. *)
Definition saved (s : KeyboardMonitor) : KeyboardMonitor :=
  let s1 := add_effect Called_save_data s in
  if truthy (data s) then
    if writable s (log_file s)
    then add_effect (Printed DataSavedMsg) (set_disk (Document (data s)) s1)
    else add_effect (Printed WriteErrorMsg) s1
  else s1.

Lemma save_data_returns (s : KeyboardMonitor) : save_data s = (Ok tt, saved s).
Proof.
  unfold save_data, saved, try_except, write_json, bind, gets, emit, modify, raise, ret.
  cbn [data add_effect].
  destruct (truthy (data s)); [|reflexivity].
  cbn [writable log_file add_effect].
  destruct (writable s (log_file s)); reflexivity.
Qed.

(** The follow-up of a batch: the checkpoint, then the signal to the GUI. *)
Definition checkpointed (s : KeyboardMonitor) : KeyboardMonitor :=
  let s1 := saved s in
  if gui_alive (root s1) then add_effect Generated_UpdateStats s1 else s1.

(** The data [on_press] leaves when the total was [n], the count of the
    hour was [c] and the time stamps were [ks]. *)
Definition pressed (d hc : list (string * value)) (n c : Z) (ks : list value)
  (t : datetime) : value :=
  VDict (dict_set
           (dict_set (dict_set d "total_count" (VInt (n + 1)))
                     "hourly_counts"
                     (VDict (dict_set hc (str_of_int (hour t)) (VInt (c + 1)))))
           "keystrokes" (VList (ks ++ [VStr (isoformat t)]))).

(** The count [get(str(hour), 0)] reads from the hourly dict. *)
Definition count_at (hc : list (string * value)) (k : string) : option Z :=
  match dict_get hc k with
  | Some v => as_int v
  | None => Some 0
  end.

Lemma on_press_returns (k : key) (t : datetime) (s : KeyboardMonitor)
  (d hc : list (string * value)) (tc : value) (n c : Z) (ks : list value) :
  data s = VDict d ->
  dict_get d "total_count" = Some tc ->
  as_int tc = Some n ->
  dict_get d "hourly_counts" = Some (VDict hc) ->
  count_at hc (str_of_int (hour t)) = Some c ->
  dict_get d "keystrokes" = Some (VList ks) ->
  on_press k t s =
    (Ok tt,
     let s' := set_data (pressed d hc n c ks t) s in
     if (n + 1) mod 100 =? 0 then checkpointed s' else s').
Proof.
  intros Hd Htc Hn Hhc Hc Hks.
  unfold on_press. cbv zeta.
  rewrite bind_gets, Hd. unfold getitem at 1. rewrite Htc, bind_lift_ok.
  unfold add_int at 1. rewrite Hn, bind_lift_ok.
  unfold setitem at 1. rewrite bind_lift_ok, bind_modify, bind_gets.
  cbn [data set_data].
  unfold getitem at 1.
  rewrite dict_get_set_other by discriminate. rewrite Hhc, bind_lift_ok.
  assert (Hold : get_method (VDict hc) (str_of_int (hour t)) (VInt 0) = Ok
            match dict_get hc (str_of_int (hour t)) with Some v => v | None => VInt 0 end).
  { unfold get_method. destruct (dict_get hc (str_of_int (hour t))); reflexivity. }
  rewrite Hold, bind_lift_ok.
  assert (Hnew : add_int match dict_get hc (str_of_int (hour t)) with Some v => v | None => VInt 0 end 1
                 = Ok (VInt (c + 1))).
  { unfold count_at in Hc. unfold add_int. destruct (dict_get hc (str_of_int (hour t))).
    - now rewrite Hc.
    - injection Hc as <-. reflexivity. }
  rewrite Hnew, bind_lift_ok.
  unfold getitem at 1.
  rewrite dict_get_set_other by discriminate. rewrite Hhc, bind_lift_ok.
  unfold setitem at 1. rewrite bind_lift_ok.
  unfold setitem at 1. rewrite bind_lift_ok, bind_modify, bind_gets.
  cbn [data set_data].
  unfold getitem at 1.
  rewrite !dict_get_set_other by discriminate. rewrite Hks, bind_lift_ok.
  unfold append_method. rewrite bind_lift_ok.
  unfold setitem at 1. rewrite bind_lift_ok, bind_modify, bind_gets.
  cbn [data set_data].
  unfold getitem at 1.
  rewrite !dict_get_set_other by discriminate.
  rewrite dict_get_set_same, bind_lift_ok.
  unfold mod_int, eq_int. cbn [as_int]. rewrite bind_lift_ok. cbn [as_int].
  unfold pressed, checkpointed.
  destruct ((n + 1) mod 100 =? 0); [|reflexivity].
  unfold bind. rewrite save_data_returns.
  unfold gets, emit, modify, ret. destruct (gui_alive _); reflexivity.
Qed.

(** ** The aggregate a fresh monitor keeps *)

Definition int_counts (hc : list (string * Z)) : list (string * value) :=
  map (fun kc => (fst kc, VInt (snd kc))) hc.

(** The aggregate with its four fields in the order [load_data] creates
    them, every hourly count an integer. *)
Definition aggregate (hc : list (string * Z)) (n : Z) (st : string) (ks : list value)
  : value :=
  VDict [ ("hourly_counts", VDict (int_counts hc));
          ("total_count", VInt n);
          ("start_time", VStr st);
          ("keystrokes", VList ks) ].

Definition zero_counts : list (string * Z) :=
  map (fun i => (str_of_int i, 0)) (range 24).

Lemma fresh_data_aggregate (now : datetime) :
  fresh_data now = aggregate zero_counts 0 (isoformat now) [].
Proof. reflexivity. Qed.

Definition count_of (hc : list (string * Z)) (k : string) : Z :=
  match assoc_get String.eqb hc k with
  | Some c => c
  | None => 0
  end.

Lemma dict_get_int_counts (hc : list (string * Z)) (k : string) :
  dict_get (int_counts hc) k = option_map VInt (assoc_get String.eqb hc k).
Proof.
  induction hc as [|[k' c] hc IH]; simpl; [reflexivity|].
  unfold dict_get in *. simpl. destruct (String.eqb k' k); [reflexivity | exact IH].
Qed.

Lemma count_at_int_counts (hc : list (string * Z)) (k : string) :
  count_at (int_counts hc) k = Some (count_of hc k).
Proof.
  unfold count_at, count_of. rewrite dict_get_int_counts.
  destruct (assoc_get String.eqb hc k); reflexivity.
Qed.

Lemma dict_set_int_counts (hc : list (string * Z)) (k : string) (c : Z) :
  dict_set (int_counts hc) k (VInt c) = int_counts (assoc_set String.eqb hc k c).
Proof.
  induction hc as [|[k' c'] hc IH]; simpl; [reflexivity|].
  unfold dict_set in *. simpl. destruct (String.eqb k' k); simpl; [reflexivity|].
  now rewrite IH.
Qed.

(** The hourly counts after one more event in the hour written [k]. *)
Definition bump (hc : list (string * Z)) (k : string) : list (string * Z) :=
  assoc_set String.eqb hc k (count_of hc k + 1).

Lemma pressed_aggregate hc n st ks t :
  pressed [ ("hourly_counts", VDict (int_counts hc));
            ("total_count", VInt n);
            ("start_time", VStr st);
            ("keystrokes", VList ks) ]
          (int_counts hc) n (count_of hc (str_of_int (hour t))) ks t
  = aggregate (bump hc (str_of_int (hour t))) (n + 1) st (ks ++ [VStr (isoformat t)]).
Proof.
  unfold pressed, aggregate, bump. rewrite dict_set_int_counts. reflexivity.
Qed.

Lemma on_press_aggregate (k : key) (t : datetime) (s : KeyboardMonitor) hc n st ks :
  data s = aggregate hc n st ks ->
  on_press k t s =
    (Ok tt,
     let s' := set_data (aggregate (bump hc (str_of_int (hour t))) (n + 1) st
                                   (ks ++ [VStr (isoformat t)])) s in
     if (n + 1) mod 100 =? 0 then checkpointed s' else s').
Proof.
  intros Hd.
  rewrite (on_press_returns k t s _ (int_counts hc) (VInt n) n
             (count_of hc (str_of_int (hour t))) ks Hd);
    try reflexivity.
  - now rewrite pressed_aggregate.
  - apply count_at_int_counts.
Qed.

(** ** Running the callback over a stream of events *)

(** One [on_press] per event, each with the key pressed and the reading of
    the clock; an exception ends the run. *)
Fixpoint press_all (events : list (key * datetime)) : M unit :=
  match events with
  | [] => ret tt
  | (k, t) :: rest => on_press k t ;;; press_all rest
  end.

(** [len(v)]. *)
Definition py_len (v : value) : result Z :=
  match v with
  | VList l => Ok (Z.of_nat (List.length l))
  | VDict d => Ok (Z.of_nat (List.length d))
  | VStr s => Ok (Z.of_nat (String.length s))
  | _ => Raise TypeError
  end.

(** [sum(vs)], from the start value [acc]. *)
Fixpoint py_sum (acc : Z) (vs : list value) : result Z :=
  match vs with
  | [] => Ok acc
  | v :: rest =>
      match as_int v with
      | Some z => py_sum (acc + z) rest
      | None => Raise TypeError
      end
  end.

(** [d.values()]. *)
Definition values_method (d : value) : result (list value) :=
  match d with
  | VDict kv => Ok (map snd kv)
  | _ => Raise AttributeError
  end.

(** [data["total_count"] == len(data["keystrokes"])] and
    [data["total_count"] == sum(data["hourly_counts"].values())], both
    evaluated without an exception. *)
Definition consistent (d : value) : Prop :=
  exists n : Z,
    getitem d "total_count" = Ok (VInt n) /\
    rbind (getitem d "keystrokes") py_len = Ok n /\
    rbind (rbind (getitem d "hourly_counts") values_method) (py_sum 0) = Ok n.

Definition total (hc : list (string * Z)) : Z :=
  fold_right (fun kc acc => snd kc + acc) 0 hc.

Lemma py_sum_int_counts (hc : list (string * Z)) (acc : Z) :
  py_sum acc (map snd (int_counts hc)) = Ok (acc + total hc).
Proof.
  revert acc. induction hc as [|[k c] hc IH]; intros acc; simpl.
  - f_equal. lia.
  - rewrite IH. f_equal. lia.
Qed.

Lemma total_bump (hc : list (string * Z)) (k : string) :
  total (bump hc k) = total hc + 1.
Proof.
  unfold bump, count_of.
  induction hc as [|[k' c] hc IH]; simpl; [lia|].
  destruct (String.eqb k' k); simpl; lia.
Qed.

Lemma aggregate_consistent hc n st ks :
  n = Z.of_nat (List.length ks) -> n = total hc ->
  consistent (aggregate hc n st ks).
Proof.
  intros Hl Ht. exists n. repeat split.
  - simpl. now rewrite <- Hl.
  - simpl. rewrite py_sum_int_counts. f_equal. lia.
Qed.

(** The fields [on_press] never touches. *)
Definition same_setting (s s' : KeyboardMonitor) : Prop :=
  root s' = root s /\ writable s' = writable s /\ log_file s' = log_file s.

Lemma saved_data s : data (saved s) = data s.
Proof.
  unfold saved. destruct (truthy (data s)); [|reflexivity].
  destruct (writable s (log_file s)); reflexivity.
Qed.

Lemma saved_root s : root (saved s) = root s.
Proof.
  unfold saved. destruct (truthy (data s)); [|reflexivity].
  destruct (writable s (log_file s)); reflexivity.
Qed.

Lemma checkpointed_data s : data (checkpointed s) = data s.
Proof.
  unfold checkpointed. cbv zeta.
  destruct (gui_alive _); cbn [data add_effect]; apply saved_data.
Qed.

Lemma checkpointed_root s : root (checkpointed s) = root s.
Proof.
  unfold checkpointed. cbv zeta.
  destruct (gui_alive _); cbn [root add_effect]; apply saved_root.
Qed.

(** How many checkpoints, and how many signals to the GUI, a trace holds. *)
Definition is_save (e : effect) : bool :=
  match e with Called_save_data => true | _ => false end.
Definition is_signal (e : effect) : bool :=
  match e with Generated_UpdateStats => true | _ => false end.
Definition saves (s : KeyboardMonitor) : nat := List.length (filter is_save (trace s)).
Definition signals (s : KeyboardMonitor) : nat := List.length (filter is_signal (trace s)).

Lemma saved_saves s : saves (saved s) = S (saves s).
Proof.
  unfold saves, saved.
  destruct (truthy (data s)); [destruct (writable s (log_file s))|];
    cbn [trace add_effect set_disk]; rewrite ?filter_app, ?length_app; simpl; lia.
Qed.

Lemma saved_signals s : signals (saved s) = signals s.
Proof.
  unfold signals, saved.
  destruct (truthy (data s)); [destruct (writable s (log_file s))|];
    cbn [trace add_effect set_disk]; rewrite ?filter_app, ?length_app; simpl; lia.
Qed.

Lemma checkpointed_saves s : saves (checkpointed s) = S (saves s).
Proof.
  unfold checkpointed. cbv zeta. destruct (gui_alive _).
  - unfold saves at 1. cbn [trace add_effect]. rewrite filter_app, length_app. simpl.
    fold (saves (saved s)). rewrite saved_saves. lia.
  - apply saved_saves.
Qed.

Lemma checkpointed_signals s :
  signals (checkpointed s) = (signals s + if gui_alive (root s) then 1 else 0)%nat.
Proof.
  unfold checkpointed. cbv zeta. rewrite saved_root. destruct (gui_alive _).
  - unfold signals at 1. cbn [trace add_effect]. rewrite filter_app, length_app. simpl.
    fold (signals (saved s)). rewrite saved_signals. lia.
  - rewrite saved_signals. lia.
Qed.

(** The batches completed between a total of [n] and a total of [n + k]. *)
Definition batches (n k : Z) : Z := (n + k) / 100 - n / 100.

Lemma batches_step (n : Z) :
  (n + 1) / 100 - n / 100 = if (n + 1) mod 100 =? 0 then 1 else 0.
Proof.
  pose proof (Z.div_mod (n + 1) 100 ltac:(lia)) as H1.
  pose proof (Z.div_mod n 100 ltac:(lia)) as H2.
  pose proof (Z.mod_pos_bound (n + 1) 100 ltac:(lia)) as B1.
  pose proof (Z.mod_pos_bound n 100 ltac:(lia)) as B2.
  destruct ((n + 1) mod 100 =? 0) eqn:E.
  - apply Z.eqb_eq in E. lia.
  - apply Z.eqb_neq in E. lia.
Qed.

(** What a run of events does to a monitor that holds a well-formed
    aggregate: it returns, the aggregate grows by the events, and every
    completed batch of 100 leaves one checkpoint and, with a live GUI, one
    signal. *)
Lemma press_all_aggregate (events : list (key * datetime)) :
  forall (s : KeyboardMonitor) hc n st ks,
    data s = aggregate hc n st ks ->
    exists s' hc' ks',
      press_all events s = (Ok tt, s') /\
      data s' = aggregate hc' (n + Z.of_nat (List.length events)) st ks' /\
      total hc' = total hc + Z.of_nat (List.length events) /\
      List.length ks' = (List.length ks + List.length events)%nat /\
      root s' = root s /\
      Z.of_nat (saves s') = Z.of_nat (saves s) + batches n (Z.of_nat (List.length events)) /\
      Z.of_nat (signals s') =
        Z.of_nat (signals s)
        + if gui_alive (root s) then batches n (Z.of_nat (List.length events)) else 0.
Proof.
  induction events as [|[k t] rest IH]; intros s hc n st ks Hd.
  - exists s, hc, ks. unfold batches. cbn [press_all List.length Z.of_nat].
    rewrite !Z.add_0_r, Z.sub_diag, Nat.add_0_r.
    repeat split; try assumption; try reflexivity; destruct (gui_alive (root s)); lia.
  - cbn [press_all]. unfold bind at 1.
    rewrite (on_press_aggregate k t s hc n st ks Hd). cbv zeta.
    set (s1 := set_data _ s).
    set (s2 := if (n + 1) mod 100 =? 0 then checkpointed s1 else s1).
    assert (Hd2 : data s2 = aggregate (bump hc (str_of_int (hour t))) (n + 1) st
                                      (ks ++ [VStr (isoformat t)])).
    { subst s2. destruct (_ =? _); [rewrite checkpointed_data|]; reflexivity. }
    assert (Hr2 : root s2 = root s).
    { subst s2. destruct (_ =? _); [rewrite checkpointed_root|]; reflexivity. }
    assert (Hs2 : Z.of_nat (saves s2) = Z.of_nat (saves s) + ((n + 1) / 100 - n / 100)).
    { rewrite batches_step. subst s2. destruct (_ =? _).
      - rewrite checkpointed_saves. subst s1. unfold saves. cbn [trace set_data]. lia.
      - subst s1. unfold saves. cbn [trace set_data]. lia. }
    assert (Hg2 : Z.of_nat (signals s2) =
                  Z.of_nat (signals s)
                  + if gui_alive (root s) then (n + 1) / 100 - n / 100 else 0).
    { rewrite batches_step. subst s2. destruct (_ =? _).
      - rewrite checkpointed_signals. subst s1. unfold signals. cbn [trace set_data root].
        destruct (gui_alive (root s)); lia.
      - subst s1. unfold signals. cbn [trace set_data]. destruct (gui_alive (root s)); lia. }
    destruct (IH s2 _ _ _ _ Hd2) as (s' & hc' & ks' & Hrun & Hd' & Ht' & Hl' & Hr' & Hs' & Hg').
    exists s', hc', ks'. rewrite Hrun.
    cbn [List.length]. rewrite Nat2Z.inj_succ.
    replace (n + Z.succ (Z.of_nat (List.length rest)))
      with (n + 1 + Z.of_nat (List.length rest)) by lia.
    repeat split.
    + exact Hd'.
    + rewrite Ht', total_bump. lia.
    + rewrite Hl', length_app. simpl. lia.
    + congruence.
    + rewrite Hs', Hs2. unfold batches.
      replace (n + Z.succ (Z.of_nat (List.length rest)))
        with (n + 1 + Z.of_nat (List.length rest)) by lia. lia.
    + rewrite Hg', Hg2, Hr2. unfold batches.
      replace (n + Z.succ (Z.of_nat (List.length rest)))
        with (n + 1 + Z.of_nat (List.length rest)) by lia.
      destruct (gui_alive (root s)); lia.
Qed.

(** ** The claims on recording *)

(** C1.  For every sequence of [on_press] calls on a monitor whose aggregate
    was just initialised, after each call (the first [i] of them, for every
    [i]) the call has returned and the aggregate satisfies
    [total_count == len(keystrokes)] and
    [total_count == sum(hourly_counts.values())]. *)
Theorem C1_counts_consistent_after_every_press :
  forall (s : KeyboardMonitor) (t0 : datetime) (events : list (key * datetime)) (i : nat),
    exists s' : KeyboardMonitor,
      press_all (firstn i events) (set_data (fresh_data t0) s) = (Ok tt, s') /\
      consistent (data s').
Proof.
  intros s t0 events i.
  destruct (press_all_aggregate (firstn i events) (set_data (fresh_data t0) s)
              zero_counts 0 (isoformat t0) [] eq_refl)
    as (s' & hc' & ks' & Hrun & Hd & Ht & Hl & _).
  exists s'. split; [exact Hrun|].
  rewrite Hd. apply aggregate_consistent.
  - rewrite Hl. simpl. lia.
  - rewrite Ht. reflexivity.
Qed.

(** C4.  On a monitor whose aggregate was just initialised, 100 events leave
    exactly one more call of [save_data] and, when a GUI window is alive,
    exactly one more [<<UpdateStats>>] event (none is generated without a
    window: the signal then has nobody to reach); 99 events leave no call
    of [save_data] and no event. *)
Theorem C4_batch_checkpoint :
  forall (s : KeyboardMonitor) (t0 : datetime) (events : list (key * datetime)),
    exists s' : KeyboardMonitor,
      press_all events (set_data (fresh_data t0) s) = (Ok tt, s') /\
      (List.length events = 100%nat ->
         saves s' = S (saves s) /\
         signals s' = (signals s + if gui_alive (root s) then 1 else 0)%nat) /\
      (List.length events = 99%nat ->
         saves s' = saves s /\ signals s' = signals s).
Proof.
  intros s t0 events.
  destruct (press_all_aggregate events (set_data (fresh_data t0) s)
              zero_counts 0 (isoformat t0) [] eq_refl)
    as (s' & hc' & ks' & Hrun & _ & _ & _ & _ & Hs & Hg).
  exists s'. split; [exact Hrun|].
  change (saves (set_data (fresh_data t0) s)) with (saves s) in Hs.
  change (signals (set_data (fresh_data t0) s)) with (signals s) in Hg.
  change (root (set_data (fresh_data t0) s)) with (root s) in Hg.
  split; intros Hlen; rewrite Hlen in Hs, Hg; unfold batches in Hs, Hg;
    cbn in Hs, Hg; destruct (gui_alive (root s)); split; lia.
Qed.

(** C9.  What [on_press] returns and every field of the state it leaves
    (the aggregate, the log file, the effects) are the same whichever key
    was pressed. *)
Theorem C9_on_press_ignores_the_key :
  forall (k1 k2 : key) (t : datetime) (s : KeyboardMonitor),
    on_press k1 t s = on_press k2 t s.
Proof. reflexivity. Qed.

(** ** The lifecycle *)

Lemma saved_is_running s : is_running (saved s) = is_running s.
Proof.
  unfold saved. destruct (truthy (data s)); [|reflexivity].
  destruct (writable s (log_file s)); reflexivity.
Qed.

Lemma stop_monitoring_returns (s : KeyboardMonitor) :
  exists s', stop_monitoring s = (Ok tt, s') /\ is_running s' = false.
Proof.
  unfold stop_monitoring, bind, gets, emit, modify, ret.
  destruct (is_running s) eqn:Hrun.
  - cbn [listener set_is_running]. destruct (listener s);
      cbv beta iota; rewrite save_data_returns; (eexists; split; [reflexivity|]);
      cbn [is_running add_effect]; rewrite saved_is_running; reflexivity.
  - exists s. split; [reflexivity | exact Hrun].
Qed.

Lemma stop_monitoring_idle (s : KeyboardMonitor) :
  is_running s = false -> stop_monitoring s = (Ok tt, s).
Proof.
  intros H. unfold stop_monitoring, bind, gets, ret. rewrite H. reflexivity.
Qed.

(** C7.  From any state [stop_monitoring] returns without an exception, a
    second call right after it returns too and leaves the state of the
    first (fields, log file and effects) unchanged, and a call while not
    running changes nothing. *)
Theorem C7_stop_is_idempotent :
  forall s : KeyboardMonitor,
    let once := exec stop_monitoring s in
    eval stop_monitoring s = Ok tt /\
    stop_monitoring once = (Ok tt, once) /\
    (is_running s = false -> stop_monitoring s = (Ok tt, s)).
Proof.
  intros s once. subst once. unfold exec, eval.
  destruct (stop_monitoring_returns s) as (s' & Hrun & Hoff).
  rewrite Hrun. cbn [fst snd].
  repeat split.
  - apply stop_monitoring_idle, Hoff.
  - intros Hidle. rewrite <- Hrun. apply stop_monitoring_idle, Hidle.
Qed.

(** ** Persistence *)

Definition has_keys {V : Type} (d : list (string * V)) (keys : list string) : bool :=
  forallb (assoc_mem String.eqb d) keys.

(** A valid aggregate: a dict with the four fields, its hourly counts a
    dict with a key for each of the 24 hours. *)
Definition valid_aggregate (a : value) : bool :=
  match a with
  | VDict d =>
      has_keys d required_keys &&
      match dict_get d "hourly_counts" with
      | Some (VDict hc) => has_keys hc (map str_of_int (range 24))
      | _ => false
      end
  | _ => false
  end.

Lemma all_in_dict (d : list (string * value)) (keys : list string) :
  all_in (VDict d) keys = Ok (has_keys d keys).
Proof.
  induction keys as [|k keys IH]; [reflexivity|].
  cbn [all_in contains rbind has_keys forallb].
  destruct (assoc_mem String.eqb d k); [exact IH | reflexivity].
Qed.

Lemma all_in_raises (v : value) (keys : list string) (e : exn) :
  all_in v keys = Raise e -> e = TypeError.
Proof.
  induction keys as [|k keys IH]; [discriminate|].
  cbn [all_in]. destruct (contains v k) as [[|]|e'] eqn:Hc; cbn [rbind].
  - exact IH.
  - discriminate.
  - intros [= <-]. destruct v; try discriminate; now injection Hc as <-.
Qed.

(** What [load_data] returns when the log file holds a document. *)
Lemma load_data_document (s : KeyboardMonitor) (now : datetime) (v : value) :
  disk s = Document v ->
  load_data now s =
    match all_in v required_keys with
    | Ok true => (Ok v, s)
    | Ok false => (Ok (fresh_data now), s)
    | Raise _ => (Ok (fresh_data now), add_effect (Printed LoadErrorMsg) s)
    end.
Proof.
  intros Hdisk.
  unfold load_data, read_json, try_except, bind, gets, lift, emit, modify, ret, raise.
  cbv beta iota. rewrite Hdisk. cbn [file_exists]. cbv beta iota.
  rewrite Hdisk. cbv beta iota.
  destruct (all_in v required_keys) as [[|]|e] eqn:Hall; try reflexivity.
  apply all_in_raises in Hall. subst e. reflexivity.
Qed.

Lemma valid_aggregate_has_fields (a : value) :
  valid_aggregate a = true -> all_in a required_keys = Ok true.
Proof.
  destruct a as [| | | | |d]; try discriminate.
  unfold valid_aggregate. intros H. apply andb_prop in H as [H _].
  now rewrite all_in_dict, H.
Qed.

Lemma valid_aggregate_truthy (a : value) : valid_aggregate a = true -> truthy a = true.
Proof.
  destruct a as [| | | | |[|kv d]]; try discriminate; reflexivity.
Qed.


Definition a_time : datetime :=
  {| year := 2024; month := 3; day := 7; hour := 9; minute := 5; second := 0;
     microsecond := 0 |}.

Definition a_monitor : KeyboardMonitor :=
  init "keyboard_logs" "2024-03-07" NoFile (fun _ => true) a_time.


(** [load_data] returns a value whatever the log file holds. *)
Lemma load_data_never_raises (s : KeyboardMonitor) (now : datetime) :
  exists (v : value) (s' : KeyboardMonitor), load_data now s = (Ok v, s').
Proof.
  destruct (disk s) as [| | |v] eqn:Hdisk.
  1-3: unfold load_data, read_json, try_except, bind, gets, lift, emit, modify, ret, raise;
       cbv beta iota; rewrite Hdisk; cbn [file_exists]; cbv beta iota;
       rewrite ?Hdisk; cbv beta iota; eauto.
  rewrite (load_data_document s now v Hdisk).
  destruct (all_in v required_keys) as [[|]|e]; eauto.
Qed.

(** The log files the source tells apart as not valid: none, one that
    cannot be read or parsed, and a document for which the test
    [all(k in data for k in ...)] is false or raises. *)
Definition rejected (f : file) : bool :=
  match f with
  | Document v => match all_in v required_keys with
                  | Ok true => false
                  | _ => true
                  end
  | _ => true
  end.

Lemma load_data_rejected (s : KeyboardMonitor) (now : datetime) :
  rejected (disk s) = true ->
  eval (load_data now) s = Ok (fresh_data now) /\
  getitem (fresh_data now) "total_count" = Ok (VInt 0).
Proof.
  intros Hrej. split; [|reflexivity]. unfold eval.
  destruct (disk s) as [| | |v] eqn:Hdisk.
  1-3: unfold load_data, read_json, try_except, bind, gets, lift, emit, modify, ret, raise;
       cbv beta iota; rewrite Hdisk; cbn [file_exists]; cbv beta iota;
       rewrite ?Hdisk; reflexivity.
  rewrite (load_data_document s now v Hdisk).
  cbn [rejected] in Hrej.
  destruct (all_in v required_keys) as [[|]|e]; try reflexivity; discriminate.
Qed.

(** A JSON object that lacks one of the four fields is rejected. *)
Lemma rejected_missing_field (d : list (string * value)) (k : string) :
  In k required_keys -> dict_get d k = None -> rejected (Document (VDict d)) = true.
Proof.
  intros Hin Hnone. cbn [rejected]. rewrite all_in_dict.
  replace (has_keys d required_keys) with false; [reflexivity|].
  symmetry. apply not_true_is_false. intros H.
  unfold has_keys in H. rewrite forallb_forall in H. specialize (H k Hin).
  unfold assoc_mem in H. fold (dict_get d k) in H. now rewrite Hnone in H.
Qed.

(** ** Recording into a loaded aggregate *)










(** A log of the day that knows a single hour. *)
Definition sparse_document : list (string * value) :=
  [ ("hourly_counts", VDict [("7", VInt 5)]);
    ("total_count", VInt 5);
    ("start_time", VStr "2024-03-07T07:00:00");
    ("keystrokes", VList [VStr "2024-03-07T07:00:01"; VStr "2024-03-07T07:00:02";
                          VStr "2024-03-07T07:00:03"; VStr "2024-03-07T07:00:04";
                          VStr "2024-03-07T07:00:05"]) ].

Definition sparse_monitor : KeyboardMonitor :=
  init "keyboard_logs" "2024-03-07" (Document (VDict sparse_document)) (fun _ => true) a_time.



(** ** The peak hour *)

(** Hours with integer counts, as the statistics hold them. *)
Definition counted (l : list (Z * Z)) : list (Z * value) :=
  map (fun hc => (fst hc, VInt (snd hc))) l.

(** The scan of [max]: the running best moves only to a greater count. *)
Fixpoint first_max (best : Z * Z) (l : list (Z * Z)) : Z * Z :=
  match l with
  | [] => best
  | item :: rest => first_max (if snd best <? snd item then item else best) rest
  end.

Lemma max_by_count_counted (best : Z * Z) (l : list (Z * Z)) :
  max_by_count (fst best, VInt (snd best)) (counted l)
  = Ok (fst (first_max best l), VInt (snd (first_max best l))).
Proof.
  revert best. induction l as [|item rest IH]; intros best; [reflexivity|].
  cbn [counted map max_by_count first_max snd py_gt as_int rbind].
  fold (counted rest).
  destruct (snd best <? snd item); apply IH.
Qed.


Lemma first_max_ge_best (best : Z * Z) (l : list (Z * Z)) :
  snd best <= snd (first_max best l).
Proof.
  revert best. induction l as [|item rest IH]; intros best; cbn [first_max]; [lia|].
  destruct (snd best <? snd item) eqn:E.
  - apply Z.ltb_lt in E. specialize (IH item). lia.
  - apply IH.
Qed.



(** The hours the keys of an hourly dict name, when each key is the text
    of an integer. *)
Fixpoint hours_of (hc : list (string * value)) : option (list Z) :=
  match hc with
  | [] => Some []
  | (k, _) :: rest =>
      match int_of_str k, hours_of rest with
      | Ok h, Some hs => Some (h :: hs)
      | _, _ => None
      end
  end.



(** The counts of the hourly dict, when each is an [int]. *)
Fixpoint counts_of (hc : list (string * value)) : option (list Z) :=
  match hc with
  | [] => Some []
  | (_, VInt c) :: rest => option_map (cons c) (counts_of rest)
  | _ => None
  end.




Lemma counted_combine (hc : list (string * value)) (hs cs : list Z) :
  hours_of hc = Some hs -> counts_of hc = Some cs ->
  combine hs (map snd hc) = counted (combine hs cs) /\
  map fst (combine hs cs) = hs.
Proof.
  revert hs cs. induction hc as [|[k v] rest IH]; intros hs cs Hh Hc.
  - injection Hh as <-. injection Hc as <-. now split.
  - cbn [hours_of] in Hh. cbn [counts_of] in Hc.
    destruct (int_of_str k) as [h|]; [|discriminate].
    destruct (hours_of rest) as [hs'|]; [|discriminate].
    injection Hh as <-.
    destruct v as [| |c| | |]; try discriminate.
    destruct (counts_of rest) as [cs'|]; [|discriminate].
    injection Hc as <-.
    destruct (IH hs' cs' eq_refl eq_refl) as [H1 H2].
    cbn [map snd combine counted fst]. fold (counted (combine hs' cs')).
    now rewrite H1, H2.
Qed.

(** What [get_stats] computed on the way to a snapshot. *)
Lemma get_stats_peak (s : KeyboardMonitor) (now : datetime) (st : stats)
  (hc : list (string * value)) :
  get_stats s now = Ok st ->
  getitem (data s) "hourly_counts" = Ok (VDict hc) ->
  int_keyed [] hc = Ok (hourly_counts st) /\
  find_peak (hourly_counts st) = Ok (peak_hour st).
Proof.
  intros Hst Hhc. unfold get_stats in Hst. rewrite Hhc in Hst.
  destruct (getitem (data s) "total_count") as [total|]; [|discriminate].
  cbn [rbind items_method] in Hst.
  destruct (int_keyed [] hc) as [counts|]; [|discriminate].
  cbn [rbind] in Hst.
  destruct (find_peak counts) as [peak|] eqn:Hpeak; [|discriminate].
  cbn [rbind] in Hst.
  destruct (getitem (data s) "start_time") as [started|]; [|discriminate].
  cbn [rbind] in Hst.
  destruct (parse_start_time started) as [start|]; [|discriminate].
  cbn [rbind] in Hst.
  destruct (if PrimFloat.ltb 0 _ then _ else _) as [kpm|]; [|discriminate].
  cbn [rbind] in Hst. injection Hst as <-. cbn [hourly_counts peak_hour].
  now split.
Qed.



Definition nonempty {A : Type} (l : list A) : bool :=
  match l with
  | [] => false
  | _ => true
  end.




Definition snapshot (s : KeyboardMonitor) (now : datetime) : stats :=
  match get_stats s now with
  | Ok st => st
  | Raise _ =>
      {| total_keystrokes := VNone; hourly_counts := []; peak_hour := (0, VNone);
         duration_hours := 0%float; keystrokes_per_minute := NInt 0 |}
  end.


(** Five events in hour 3 recorded into a log that knew only hour 7: the
    key of hour 3 comes after the key of hour 7. *)
Definition three_o_clock : datetime :=
  {| year := 2024; month := 3; day := 7; hour := 3; minute := 30; second := 0;
     microsecond := 0 |}.

Definition late_hour_first : KeyboardMonitor :=
  exec (press_all (repeat (KeyCode "a", three_o_clock) 5)) sparse_monitor.


(** ** The rate *)

(** What [get_stats] computed for the duration and the rate. *)
Lemma get_stats_rate (s : KeyboardMonitor) (now : datetime) (st : stats)
  (total : value) (stamp : string) (start : datetime) :
  get_stats s now = Ok st ->
  getitem (data s) "total_count" = Ok total ->
  getitem (data s) "start_time" = Ok (VStr stamp) ->
  fromisoformat stamp = Ok start ->
  duration_hours st = PrimFloat.div (total_seconds (datetime_sub now start)) 3600%float /\
  (if PrimFloat.ltb 0%float (duration_hours st)
   then rate total (duration_hours st)
   else Ok (NInt 0)) = Ok (keystrokes_per_minute st).
Proof.
  intros Hst Htotal Hstart Hparse. unfold get_stats in Hst.
  rewrite Htotal, Hstart in Hst. cbn [rbind] in Hst.
  destruct (getitem (data s) "hourly_counts") as [hc|]; [|discriminate].
  cbn [rbind] in Hst.
  destruct (items_method hc) as [items|]; [|discriminate].
  cbn [rbind] in Hst.
  destruct (int_keyed [] items) as [counts|]; [|discriminate].
  cbn [rbind] in Hst.
  destruct (find_peak counts) as [peak|]; [|discriminate].
  cbn [rbind parse_start_time] in Hst. rewrite Hparse in Hst. cbn [rbind] in Hst.
  destruct (if PrimFloat.ltb 0 _ then _ else _) as [kpm|] eqn:Hkpm; [|discriminate].
  cbn [rbind] in Hst. injection Hst as <-.
  cbn [duration_hours keystrokes_per_minute]. split; [reflexivity | exact Hkpm].
Qed.

(** C6, as the code has it.  The duration of a snapshot is
    [(now - start_time)] in hours; the rate is
    [total_count / (duration * 60)] when the duration is positive, and [0]
    when the duration is zero or negative. *)
Theorem C6_rate_is_total_per_minute_when_duration_positive :
  forall (s : KeyboardMonitor) (now : datetime) (st : stats)
         (n : Z) (x : float) (stamp : string) (start : datetime),
    get_stats s now = Ok st ->
    getitem (data s) "total_count" = Ok (VInt n) ->
    float_of_Z n = Ok x ->
    getitem (data s) "start_time" = Ok (VStr stamp) ->
    fromisoformat stamp = Ok start ->
    duration_hours st = PrimFloat.div (total_seconds (datetime_sub now start)) 3600%float /\
    keystrokes_per_minute st =
      if PrimFloat.ltb 0%float (duration_hours st)
      then NFloat (PrimFloat.div x (PrimFloat.mul (duration_hours st) 60%float))
      else NInt 0.
Proof.
  intros s now st n x stamp start Hst Htotal Hx Hstart Hparse.
  destruct (get_stats_rate s now st (VInt n) stamp start Hst Htotal Hstart Hparse)
    as [Hd Hkpm].
  split; [exact Hd|].
  destruct (PrimFloat.ltb 0 (duration_hours st)); [|now injection Hkpm].
  unfold rate in Hkpm. cbn [as_int] in Hkpm. rewrite Hx in Hkpm. cbn [rbind] in Hkpm.
  destruct (PrimFloat.eqb _ 0); [discriminate | now injection Hkpm].
Qed.

(** 120 events since [a_time]. *)
Definition busy_monitor : KeyboardMonitor :=
  set_data (aggregate zero_counts 120 (isoformat a_time) []) a_monitor.

Definition an_hour_later : datetime :=
  {| year := 2024; month := 3; day := 7; hour := 10; minute := 5; second := 0;
     microsecond := 0 |}.

Definition an_hour_earlier : datetime :=
  {| year := 2024; month := 3; day := 7; hour := 8; minute := 5; second := 0;
     microsecond := 0 |}.

Lemma C6_witness :
  (duration_hours (snapshot busy_monitor an_hour_later) = 1%float /\
   keystrokes_per_minute (snapshot busy_monitor an_hour_later) = NFloat 2%float).
Proof.
  destruct (C6_rate_is_total_per_minute_when_duration_positive
              busy_monitor an_hour_later (snapshot busy_monitor an_hour_later)
              120 120%float (isoformat a_time) a_time
              eq_refl eq_refl eq_refl eq_refl eq_refl) as [Hd Hr].
  split; [rewrite Hd | rewrite Hr]; reflexivity.
Defined.

(** The rate as the claim states it: the quotient whenever the duration is
    not zero. *)
Definition rate_guarded_at_zero_only (st : stats) (x : float) : Prop :=
  (PrimFloat.eqb (duration_hours st) 0%float = true ->
   keystrokes_per_minute st = NInt 0) /\
  (PrimFloat.eqb (duration_hours st) 0%float = false ->
   keystrokes_per_minute st
   = NFloat (PrimFloat.div x (PrimFloat.mul (duration_hours st) 60%float))).

(** C6, as the claim states it, fails: with a start time one hour after
    the reading of the clock the duration is [-1.0], not zero, and the rate
    is [0], not [120 / (-1.0 * 60)]. *)
Lemma C6_counterexample :
  exists st : stats,
    get_stats busy_monitor an_hour_earlier = Ok st /\
    duration_hours st = (-1)%float /\
    keystrokes_per_minute st = NInt 0 /\
    ~ rate_guarded_at_zero_only st 120%float.
Proof.
  eexists. split; [vm_compute; reflexivity|].
  split; [reflexivity|]. split; [reflexivity|].
  intros [_ H]. specialize (H eq_refl). discriminate H.
Qed.

(** ** The report *)

(** The state after the writes of [lines] to [path]. *)
Definition wrote_all (path : string) (lines : list text) (s : KeyboardMonitor)
  : KeyboardMonitor :=
  fold_left (fun s l => add_effect (Wrote path l) s) lines s.

Lemma write_all_returns (path : string) (lines : list text) (s : KeyboardMonitor) :
  write_all path lines s = (Ok tt, wrote_all path lines s).
Proof.
  revert s. induction lines as [|l rest IH]; intros s; [reflexivity|].
  cbn [write_all]. rewrite bind_emit. apply IH.
Qed.

Lemma wrote_all_trace (path : string) (lines : list text) (s : KeyboardMonitor) :
  trace (wrote_all path lines s) = trace s ++ map (Wrote path) lines.
Proof.
  revert s. induction lines as [|l rest IH]; intros s.
  - cbn. now rewrite app_nil_r.
  - cbn [wrote_all fold_left]. fold (wrote_all path rest (add_effect (Wrote path l) s)).
    rewrite IH. cbn [trace add_effect map]. now rewrite <- app_assoc.
Qed.

(** The hours of a new aggregate as the statistics hold them. *)
Definition zero_hours : list (Z * value) := map (fun i => (i, VInt 0)) (range 24).

(** A line of the breakdown for an hour without events. *)
Definition zero_line (h : Z) : text :=
  lit (fmt_0d 2 h ++ ":00 - " ++ fmt_0d 2 (h + 1) ++ ":00: 0 keystrokes" ++ newline).

(** The seven lines [generate_report] writes before the peak line. *)
Definition report_front (self : KeyboardMonitor) (st : stats) (started : value)
  : list text :=
  [ lit ("===== Keyboard Activity Report =====" ++ newline ++ newline);
    lit ("Date: " ++ today self ++ newline);
    cats [lit "Monitoring Start Time: "; str_of_value started; lit newline];
    cats [lit "Monitoring Duration: "; [Fixed 2 (NFloat (duration_hours st))];
          lit (" hours" ++ newline ++ newline)];
    lit ("--- Statistics ---" ++ newline);
    cats [lit "Total Keystrokes: "; str_of_value (total_keystrokes st); lit newline];
    cats [lit "Average Keystrokes Per Minute: "; [Fixed 1 (keystrokes_per_minute st)];
          lit newline] ].

(** C8.  For an aggregate whose hourly dict holds the 24 hours with the
    count 0, when the statistics can be computed and the report file
    opened, [generate_report] returns, and all it does is open the file,
    write seven lines of heading and totals, then the peak line, which
    reads [N/A], the heading of the breakdown and exactly 24 lines, for the
    hours 0 to 23 in that order, each [HH:00 - HH:00: 0 keystrokes], and
    print that the report was generated. *)
Theorem C8_report_of_an_idle_day :
  forall (s : KeyboardMonitor) (now : datetime) (output_file : option string)
         (st : stats) (n : Z) (stamp : string) (ks : list value),
    data s = aggregate zero_counts n stamp ks ->
    get_stats s now = Ok st ->
    writable s (report_path s output_file) = true ->
    let path := report_path s output_file in
    exists (s' : KeyboardMonitor) (front : list text),
      generate_report output_file now s = (Ok path, s') /\
      trace s' =
        trace s
        ++ [Opened path]
        ++ map (Wrote path)
             (front
              ++ [ lit ("Peak Activity Hour: N/A (0 keystrokes)" ++ newline ++ newline);
                   lit ("--- Hourly Breakdown ---" ++ newline) ]
              ++ map zero_line (range 24))
        ++ [Printed (ReportGeneratedMsg path)] /\
      List.length front = 7%nat.
Proof.
  intros s now output_file st n stamp ks Hd Hst Hw path. subst path.
  assert (Hhc : getitem (data s) "hourly_counts" = Ok (VDict (int_counts zero_counts)))
    by now rewrite Hd.
  destruct (get_stats_peak s now st _ Hst Hhc) as [Hkeyed Hpeak].
  assert (Hcounts : hourly_counts st = zero_hours).
  { replace (int_keyed [] (int_counts zero_counts)) with (Ok zero_hours) in Hkeyed
      by (vm_compute; reflexivity).
    now injection Hkeyed. }
  assert (Hpk : peak_hour st = (0, VInt 0)).
  { rewrite Hcounts in Hpeak. now injection Hpeak. }
  assert (Hstart : getitem (data s) "start_time" = Ok (VStr stamp)) by now rewrite Hd.
  eexists. exists (report_front s st (VStr stamp)).
  split; [|split; [|reflexivity]].
  - unfold generate_report.
    rewrite bind_gets, Hst, bind_lift_ok. cbv zeta. rewrite Hw.
    cbv iota. rewrite !bind_emit.
    rewrite Hstart, bind_lift_ok, !bind_emit.
    rewrite Hpk.
    change (peak_line (0, VInt 0))
      with (Ok (lit ("Peak Activity Hour: N/A (0 keystrokes)" ++ newline ++ newline))).
    rewrite bind_lift_ok, !bind_emit.
    rewrite Hcounts.
    replace (map (breakdown_line zero_hours) (range 24)) with (map zero_line (range 24))
      by (vm_compute; reflexivity).
    unfold bind at 1. rewrite write_all_returns.
    rewrite bind_emit. unfold ret. reflexivity.
  - cbn [trace add_effect]. rewrite wrote_all_trace. cbn [trace add_effect].
    unfold report_front. rewrite map_app. cbn [map app].
    repeat rewrite <- app_assoc. cbn [app]. reflexivity.
Qed.

Lemma C8_witness :
  exists (s' : KeyboardMonitor) (front : list text),
    generate_report None an_hour_later a_monitor
    = (Ok "keyboard_logs/keyboard_report_2024-03-07.txt", s') /\
    trace s' =
      trace a_monitor
      ++ [Opened "keyboard_logs/keyboard_report_2024-03-07.txt"]
      ++ map (Wrote "keyboard_logs/keyboard_report_2024-03-07.txt")
           (front
            ++ [ lit ("Peak Activity Hour: N/A (0 keystrokes)" ++ newline ++ newline);
                 lit ("--- Hourly Breakdown ---" ++ newline) ]
            ++ map zero_line (range 24))
      ++ [Printed (ReportGeneratedMsg "keyboard_logs/keyboard_report_2024-03-07.txt")] /\
    List.length front = 7%nat.
Proof.
  apply (C8_report_of_an_idle_day a_monitor an_hour_later None
           (snapshot a_monitor an_hour_later) 0 (isoformat a_time) []);
    reflexivity.
Defined.

(** The first and the last line of the breakdown of an idle day. *)
Example zero_line_first_and_last :
  zero_line 0 = lit ("00:00 - 01:00: 0 keystrokes" ++ newline) /\
  zero_line 23 = lit ("23:00 - 24:00: 0 keystrokes" ++ newline).
Proof. split; reflexivity. Qed.

(** ** A log file that is a list *)

(** A JSON array that holds the names of the four fields. *)
Definition names_only : value :=
  VList [VStr "hourly_counts"; VStr "total_count"; VStr "start_time"; VStr "keystrokes"].

Definition misled_monitor : KeyboardMonitor :=
  init "keyboard_logs" "2024-03-07" (Document names_only) (fun _ => true) a_time.

(** C3 fails on the code.  A log file that holds the JSON array of the four
    field names has none of the four fields, yet the test
    [all(k in data for k in ...)] is true of it: [load_data] returns the
    list, not a new aggregate, the monitor keeps it as its data, it has no
    total to read, and the first key press raises [TypeError]. *)
Theorem C3_load_data_returns_a_list_of_the_names :
  eval (load_data a_time) misled_monitor = Ok names_only /\
  data misled_monitor = names_only /\
  names_only <> fresh_data a_time /\
  getitem (data misled_monitor) "total_count" = Raise TypeError /\
  eval (on_press (KeyCode "a") a_time) misled_monitor = Raise TypeError.
Proof.
  repeat split; try reflexivity. discriminate.
Qed.

(** * Further properties of the persistence code *)

(** The fields and the log file [load_data] and [save_data] leave alone. *)
Definition same_fields (s s' : KeyboardMonitor) : Prop :=
  log_dir s' = log_dir s /\ today s' = today s /\ log_file s' = log_file s /\
  data s' = data s /\ listener s' = listener s /\ is_running s' = is_running s /\
  start_time s' = start_time s /\ root s' = root s /\ writable s' = writable s.

Lemma same_fields_refl (s : KeyboardMonitor) : same_fields s s.
Proof. repeat split. Qed.

Lemma same_fields_add_effect (e : effect) (s : KeyboardMonitor) :
  same_fields s (add_effect e s).
Proof. repeat split. Qed.

Lemma all_in_container (v : value) (keys : list string) :
  match v with VDict _ | VList _ | VStr _ => True | _ => False end ->
  exists b : bool, all_in v keys = Ok b.
Proof.
  intros Hv. induction keys as [|k keys IH]; [now exists true|].
  cbn [all_in].
  assert (Hc : exists b, contains v k = Ok b)
    by (destruct v; try contradiction; cbn [contains]; eauto).
  destruct Hc as [[|] ->]; cbn [rbind]; [exact IH | now exists false].
Qed.

(** What [load_data] leaves behind, by the state of the log file. *)
Lemma load_data_returns_and_frames :
  forall (s : KeyboardMonitor) (now : datetime),
    exists (v : value) (s' : KeyboardMonitor),
      load_data now s = (Ok v, s') /\
      same_fields s s' /\
      disk s' = disk s /\
      trace s' =
        trace s ++
        match disk s with
        | NoFile => []
        | Unreadable => [Printed LoadErrorMsg]
        | Garbage => [Printed JSONErrorMsg]
        | Document (VDict _) | Document (VList _) | Document (VStr _) => []
        | Document _ => [Printed LoadErrorMsg]
        end.
Proof.
  intros s now.
  destruct (disk s) as [| | |v] eqn:Hdisk.
  1-3: unfold load_data, read_json, try_except, bind, gets, lift, emit, modify, ret, raise;
       cbv beta iota; rewrite Hdisk; cbn [file_exists]; cbv beta iota;
       rewrite ?Hdisk; cbv beta iota;
       eexists; eexists; (split; [reflexivity|]);
       cbn [trace add_effect disk]; rewrite ?app_nil_r;
       (split; [first [apply same_fields_refl | apply same_fields_add_effect]|]);
       (split; [exact Hdisk | reflexivity]).
  rewrite (load_data_document s now v Hdisk).
  destruct v as [| b | z | str | l | d].
  1-3: cbn [all_in required_keys contains rbind];
       eexists; eexists; (split; [reflexivity|]);
       (split; [apply same_fields_add_effect|]); (split; [exact Hdisk | reflexivity]).
  1-3: match goal with
       | |- context [all_in ?v required_keys] =>
           destruct (all_in_container v required_keys I) as [[|] ->]
       end;
       eexists; eexists; (split; [reflexivity|]);
       rewrite app_nil_r; (split; [apply same_fields_refl|]); (split; [exact Hdisk | reflexivity]).
Qed.

(** X1.  Whatever the log file holds, [load_data] returns a value and
    raises nothing; it changes no field of the monitor and not the log
    file, and prints at most one diagnostic: the JSON one exactly for a
    file that is not JSON, the general one exactly for a file that cannot
    be read or a document that is no container ([k in data] raises). *)
Theorem X1_load_data_returns_and_only_prints :
  forall (s : KeyboardMonitor) (now : datetime),
    exists (v : value) (s' : KeyboardMonitor),
      load_data now s = (Ok v, s') /\
      same_fields s s' /\
      disk s' = disk s /\
      trace s' =
        trace s ++
        match disk s with
        | NoFile => []
        | Unreadable => [Printed LoadErrorMsg]
        | Garbage => [Printed JSONErrorMsg]
        | Document (VDict _) | Document (VList _) | Document (VStr _) => []
        | Document _ => [Printed LoadErrorMsg]
        end.
Proof. exact load_data_returns_and_frames. Qed.


(** X2.  When the log file is absent, cannot be read, is not JSON, or holds
    a JSON object that lacks one of the four fields, [load_data] returns
    the new data structure, with the clock reading as start time, a total
    of 0 and no time stamp. *)
Theorem X2_load_data_starts_afresh :
  forall (s : KeyboardMonitor) (now : datetime),
    (disk s = NoFile \/ disk s = Unreadable \/ disk s = Garbage \/
     exists (d : list (string * value)) (k : string),
       disk s = Document (VDict d) /\ In k required_keys /\ dict_get d k = None) ->
    eval (load_data now) s = Ok (fresh_data now) /\
    getitem (fresh_data now) "start_time" = Ok (VStr (isoformat now)) /\
    getitem (fresh_data now) "total_count" = Ok (VInt 0) /\
    getitem (fresh_data now) "keystrokes" = Ok (VList []).
Proof.
  intros s now Hbad.
  split; [|repeat split].
  apply load_data_rejected.
  destruct Hbad as [-> | [-> | [-> | (d & k & -> & Hin & Hnone)]]]; try reflexivity.
  now apply (rejected_missing_field d k).
Qed.

(** A log of the day without its list of time stamps. *)
Definition truncated_document : list (string * value) :=
  [ ("hourly_counts", VDict [("7", VInt 5)]);
    ("total_count", VInt 5);
    ("start_time", VStr "2024-03-07T07:00:00") ].

Lemma X2_witness :
  eval (load_data a_time)
       (init "keyboard_logs" "2024-03-07" (Document (VDict truncated_document))
             (fun _ => true) a_time)
  = Ok (fresh_data a_time) /\
  getitem (fresh_data a_time) "start_time" = Ok (VStr (isoformat a_time)) /\
  getitem (fresh_data a_time) "total_count" = Ok (VInt 0) /\
  getitem (fresh_data a_time) "keystrokes" = Ok (VList []).
Proof.
  apply (X2_load_data_starts_afresh
           (init "keyboard_logs" "2024-03-07" (Document (VDict truncated_document))
                 (fun _ => true) a_time) a_time).
  right. right. right. exists truncated_document, "keystrokes".
  repeat split. right. right. right. now left.
Defined.

(** X3.  [save_data] never raises and never changes the data in memory.
    The log file ends up holding exactly the data when the data is truthy
    and the file can be opened for writing; otherwise (empty data, or the
    write fails) the file stays as it was, and a failed write is only
    reported. *)
Theorem X3_save_data_reports_and_goes_on :
  forall s : KeyboardMonitor,
    exists s' : KeyboardMonitor,
      save_data s = (Ok tt, s') /\
      same_fields s s' /\
      disk s' = (if truthy (data s) && writable s (log_file s)
                 then Document (data s) else disk s) /\
      (truthy (data s) = true -> writable s (log_file s) = false ->
       trace s' = trace s ++ [Called_save_data; Printed WriteErrorMsg]) /\
      (truthy (data s) = false -> trace s' = trace s ++ [Called_save_data]).
Proof.
  intros s. exists (saved s). split; [apply save_data_returns|].
  unfold saved.
  destruct (truthy (data s)); [destruct (writable s (log_file s))|];
    cbn [andb disk set_disk add_effect trace];
    repeat split; try discriminate; intros; now rewrite <- app_assoc.
Qed.

(** ** What [on_press] does when the data is not an aggregate *)

(** X4.  When the data has no ["total_count"] (or is no dict at all),
    [on_press] raises before it changes anything: [KeyError] for a dict
    without the key, [TypeError] for any other value. *)
Theorem X4_on_press_without_total_changes_nothing :
  forall (k : key) (t : datetime) (s : KeyboardMonitor),
    getitem (data s) "total_count" = Raise KeyError \/
    getitem (data s) "total_count" = Raise TypeError ->
    exists e : exn,
      on_press k t s = (Raise e, s) /\
      getitem (data s) "total_count" = Raise e.
Proof.
  intros k t s [H | H]; eexists; (split; [|exact H]);
    unfold on_press; cbv zeta; rewrite bind_gets; unfold bind, lift; now rewrite H.
Qed.

Lemma X4_witness :
  exists e : exn,
    on_press (KeyCode "a") a_time misled_monitor = (Raise e, misled_monitor) /\
    getitem (data misled_monitor) "total_count" = Raise e.
Proof.
  apply (X4_on_press_without_total_changes_nothing (KeyCode "a") a_time misled_monitor).
  right. reflexivity.
Defined.

Definition is_dict (v : value) : bool :=
  match v with
  | VDict _ => true
  | _ => false
  end.

(** X5.  [on_press] is not atomic.  When the total is an integer but the
    hourly counts are no dict, the call raises [AttributeError] (the value
    has no [get]) after the total was incremented: the monitor is left with
    a total one greater and everything else, the list of time stamps
    included, as before. *)
Theorem X5_on_press_fails_after_counting :
  forall (k : key) (t : datetime) (s : KeyboardMonitor)
         (d : list (string * value)) (tc hc : value) (n : Z),
    data s = VDict d ->
    dict_get d "total_count" = Some tc ->
    as_int tc = Some n ->
    dict_get d "hourly_counts" = Some hc ->
    is_dict hc = false ->
    on_press k t s =
      (Raise AttributeError, set_data (VDict (dict_set d "total_count" (VInt (n + 1)))) s) /\
    dict_get (dict_set d "total_count" (VInt (n + 1))) "keystrokes" = dict_get d "keystrokes".
Proof.
  intros k t s d tc hc n Hd Htc Hn Hhc Hnot.
  split; [|apply dict_get_set_other; discriminate].
  unfold on_press. cbv zeta.
  rewrite bind_gets, Hd. unfold getitem at 1. rewrite Htc, bind_lift_ok.
  unfold add_int at 1. rewrite Hn, bind_lift_ok.
  unfold setitem at 1. rewrite bind_lift_ok, bind_modify, bind_gets.
  cbn [data set_data].
  unfold getitem at 1.
  rewrite dict_get_set_other by discriminate. rewrite Hhc, bind_lift_ok.
  unfold bind, lift. destruct hc; try discriminate; reflexivity.
Qed.

(** A log whose hourly counts are a list. *)
Definition listed_document : list (string * value) :=
  [ ("hourly_counts", VList []);
    ("total_count", VInt 5);
    ("start_time", VStr "2024-03-07T07:00:00");
    ("keystrokes", VList []) ].

Definition listed_monitor : KeyboardMonitor :=
  init "keyboard_logs" "2024-03-07" (Document (VDict listed_document)) (fun _ => true) a_time.

Lemma X5_witness :
  on_press (KeyCode "a") a_time listed_monitor =
    (Raise AttributeError,
     set_data (VDict (dict_set listed_document "total_count" (VInt (5 + 1)))) listed_monitor) /\
  dict_get (dict_set listed_document "total_count" (VInt (5 + 1))) "keystrokes"
  = dict_get listed_document "keystrokes".
Proof.
  apply (X5_on_press_fails_after_counting (KeyCode "a") a_time listed_monitor
           listed_document (VInt 5) (VList []) 5); reflexivity.
Defined.


(** * Further properties of the lifecycle *)

(** X6.  [start_monitoring] returns from every state and leaves the monitor
    running; a second call, at whatever later time, changes nothing: the
    start time of the first call stays and no second listener is started. *)
Theorem X6_start_twice_is_start_once :
  forall (s : KeyboardMonitor) (t1 t2 : datetime),
    let once := exec (start_monitoring t1) s in
    eval (start_monitoring t1) s = Ok tt /\
    is_running once = true /\
    start_monitoring t2 once = (Ok tt, once) /\
    (is_running s = false ->
       start_time once = Some t1 /\ listener once = true /\
       trace once = trace s ++ [Listener_started; Printed MonitoringStartedMsg]).
Proof.
  intros s t1 t2 once. subst once.
  unfold exec, eval, start_monitoring, bind, gets, emit, modify, ret.
  destruct (is_running s) eqn:Hrun; cbn [negb fst snd].
  - rewrite Hrun. cbn [negb]. repeat split; try assumption; discriminate.
  - cbn [is_running add_effect set_listener set_start_time set_is_running negb].
    repeat split. cbn [trace add_effect set_listener set_start_time set_is_running].
    now rewrite <- app_assoc.
Qed.

Lemma saved_listener s : listener (saved s) = listener s.
Proof.
  unfold saved. destruct (truthy (data s)); [|reflexivity].
  destruct (writable s (log_file s)); reflexivity.
Qed.

Lemma saved_start_time s : start_time (saved s) = start_time s.
Proof.
  unfold saved. destruct (truthy (data s)); [|reflexivity].
  destruct (writable s (log_file s)); reflexivity.
Qed.

Lemma saved_disk s :
  disk (saved s) = (if truthy (data s) && writable s (log_file s)
                    then Document (data s) else disk s).
Proof.
  unfold saved. destruct (truthy (data s)); [|reflexivity].
  destruct (writable s (log_file s)); reflexivity.
Qed.

Lemma saves_add_effect (e : effect) (s : KeyboardMonitor) :
  saves (add_effect e s) = (saves s + if is_save e then 1 else 0)%nat.
Proof.
  unfold saves. cbn [trace add_effect]. rewrite filter_app, length_app.
  cbn [filter]. destruct (is_save e); reflexivity.
Qed.

(** The state [stop_monitoring] leaves a running monitor in. *)
Definition stopped (s : KeyboardMonitor) : KeyboardMonitor :=
  let s1 := set_is_running false s in
  let s2 := if listener s then set_listener false (add_effect Listener_stopped s1) else s1 in
  add_effect (Printed MonitoringStoppedMsg) (saved s2).

Lemma stop_monitoring_running (s : KeyboardMonitor) :
  is_running s = true -> stop_monitoring s = (Ok tt, stopped s).
Proof.
  intros Hrun. unfold stop_monitoring, stopped, bind, gets, emit, modify, ret.
  rewrite Hrun. cbn [listener set_is_running].
  destruct (listener s); cbv beta iota; rewrite save_data_returns; reflexivity.
Qed.

(** X7.  Starting an idle monitor and stopping it again returns, leaves it
    idle without a listener and with the same data, calls [save_data]
    exactly once, and leaves the log file holding the data whenever the
    data is truthy and the file can be written (and as it was otherwise). *)
Theorem X7_start_then_stop :
  forall (s : KeyboardMonitor) (t : datetime),
    is_running s = false ->
    exists s' : KeyboardMonitor,
      (start_monitoring t ;;; stop_monitoring) s = (Ok tt, s') /\
      is_running s' = false /\ listener s' = false /\
      start_time s' = Some t /\
      data s' = data s /\
      saves s' = S (saves s) /\
      disk s' = (if truthy (data s) && writable s (log_file s)
                 then Document (data s) else disk s).
Proof.
  intros s t Hidle.
  set (s1 := add_effect (Printed MonitoringStartedMsg)
               (add_effect Listener_started
                  (set_listener true (set_start_time (Some t) (set_is_running true s))))).
  assert (Hstart : start_monitoring t s = (Ok tt, s1)).
  { unfold start_monitoring, bind, gets, emit, modify, ret. now rewrite Hidle. }
  exists (stopped s1). split.
  - unfold bind at 1. rewrite Hstart. now apply stop_monitoring_running.
  - unfold stopped. cbv zeta.
    change (listener s1) with true. cbv iota.
    cbn [is_running listener start_time data disk add_effect].
    rewrite saved_is_running, saved_listener, saved_start_time, saved_data, saved_disk.
    rewrite saves_add_effect, saved_saves.
    repeat split.
    subst s1. unfold saves.
    cbn [trace add_effect set_listener set_is_running set_start_time].
    rewrite !filter_app, !length_app. cbn [filter is_save Datatypes.length]. lia.
Qed.

Lemma X7_witness :
  exists s' : KeyboardMonitor,
    (start_monitoring a_time ;;; stop_monitoring) a_monitor = (Ok tt, s') /\
    is_running s' = false /\ listener s' = false /\
    start_time s' = Some a_time /\
    data s' = data a_monitor /\
    saves s' = S (saves a_monitor) /\
    disk s' = (if truthy (data a_monitor) && writable a_monitor (log_file a_monitor)
               then Document (data a_monitor) else disk a_monitor).
Proof.
  apply (X7_start_then_stop a_monitor a_time). reflexivity.
Defined.

(** X8.  A monitor as [__init__] leaves it is idle, has no listener and no
    window, and has not touched the log file; so [stop_monitoring] on a
    newly constructed monitor (the [--stop] mode of the script) stops
    nothing and saves nothing: it returns and changes no field, no file and
    adds no effect. *)
Theorem X8_stop_on_a_new_monitor_does_nothing :
  forall (dir date : string) (f : file) (w : string -> bool) (now : datetime),
    let m := init dir date f w now in
    is_running m = false /\ listener m = false /\ root m = NoRoot /\
    disk m = f /\
    stop_monitoring m = (Ok tt, m).
Proof.
  intros dir date f w now m. subst m. unfold init, eval.
  match goal with
  | |- context [load_data now ?s0] =>
      destruct (load_data_returns_and_frames s0 now)
        as (v & s1 & Hrun & Hsame & Hdisk & _);
      rewrite Hrun
  end.
  destruct Hsame as (_ & _ & _ & _ & Hl & Hr & _ & Hroot & _).
  cbn [is_running listener root data disk set_data fst] in *.
  repeat split; try assumption.
  apply stop_monitoring_idle. exact Hr.
Qed.


(** * Further properties of recording *)

(** The hourly counts and the time stamps after a run of events. *)
Definition bump_all (hc : list (string * Z)) (events : list (key * datetime))
  : list (string * Z) :=
  fold_left (fun hc e => bump hc (str_of_int (hour (snd e)))) events hc.

Definition stamps (events : list (key * datetime)) : list value :=
  map (fun e => VStr (isoformat (snd e))) events.

(** The state one more [on_press] leaves, the data being an aggregate. *)
Definition pressed_state (t : datetime) (s : KeyboardMonitor) hc n st ks
  : KeyboardMonitor :=
  let s' := set_data (aggregate (bump hc (str_of_int (hour t))) (n + 1) st
                                (ks ++ [VStr (isoformat t)])) s in
  if (n + 1) mod 100 =? 0 then checkpointed s' else s'.

Lemma saved_log_file s : log_file (saved s) = log_file s.
Proof.
  unfold saved. destruct (truthy (data s)); [|reflexivity].
  destruct (writable s (log_file s)); reflexivity.
Qed.

Lemma saved_writable s : writable (saved s) = writable s.
Proof.
  unfold saved. destruct (truthy (data s)); [|reflexivity].
  destruct (writable s (log_file s)); reflexivity.
Qed.

Lemma checkpointed_log_file s : log_file (checkpointed s) = log_file s.
Proof.
  unfold checkpointed. cbv zeta.
  destruct (gui_alive _); cbn [log_file add_effect]; apply saved_log_file.
Qed.

Lemma checkpointed_writable s : writable (checkpointed s) = writable s.
Proof.
  unfold checkpointed. cbv zeta.
  destruct (gui_alive _); cbn [writable add_effect]; apply saved_writable.
Qed.

Lemma checkpointed_disk s :
  disk (checkpointed s) = (if truthy (data s) && writable s (log_file s)
                           then Document (data s) else disk s).
Proof.
  unfold checkpointed. cbv zeta.
  destruct (gui_alive _); cbn [disk add_effect]; apply saved_disk.
Qed.

Lemma press_all_app (a b : list (key * datetime)) (s : KeyboardMonitor) :
  press_all (a ++ b) s = (press_all a ;;; press_all b) s.
Proof.
  revert s. induction a as [|[k t] a IH]; intros s; [reflexivity|].
  cbn [app press_all]. unfold bind.
  destruct (on_press k t s) as [[[]|e] s1]; [|reflexivity].
  rewrite IH. reflexivity.
Qed.

(** A run on an aggregate returns, and the aggregate it leaves is the one
    the events determine. *)
Lemma press_all_exact (events : list (key * datetime)) :
  forall (s : KeyboardMonitor) hc n st ks,
    data s = aggregate hc n st ks ->
    exists s',
      press_all events s = (Ok tt, s') /\
      data s' = aggregate (bump_all hc events) (n + Z.of_nat (List.length events)) st
                          (ks ++ stamps events) /\
      log_file s' = log_file s /\ writable s' = writable s.
Proof.
  induction events as [|[k t] rest IH]; intros s hc n st ks Hd.
  - exists s. cbn [press_all bump_all fold_left stamps map List.length Z.of_nat].
    rewrite Z.add_0_r, app_nil_r. repeat split. exact Hd.
  - cbn [press_all]. unfold bind at 1.
    rewrite (on_press_aggregate k t s hc n st ks Hd). cbv zeta.
    set (s1 := set_data _ s).
    set (s2 := if (n + 1) mod 100 =? 0 then checkpointed s1 else s1).
    assert (Hd2 : data s2 = aggregate (bump hc (str_of_int (hour t))) (n + 1) st
                                      (ks ++ [VStr (isoformat t)])).
    { subst s2. destruct (_ =? _); [rewrite checkpointed_data|]; reflexivity. }
    assert (Hl2 : log_file s2 = log_file s).
    { subst s2. destruct (_ =? _); [rewrite checkpointed_log_file|]; reflexivity. }
    assert (Hw2 : writable s2 = writable s).
    { subst s2. destruct (_ =? _); [rewrite checkpointed_writable|]; reflexivity. }
    destruct (IH s2 _ _ _ _ Hd2) as (s' & Hrun & Hd' & Hl' & Hw').
    exists s'. rewrite Hrun. split; [reflexivity|].
    split; [|split; congruence].
    rewrite Hd'. cbn [bump_all fold_left stamps map List.length snd].
    rewrite Nat2Z.inj_succ, <- app_assoc. cbn [app].
    f_equal. lia.
Qed.


(** [str] writes different integers differently. *)
Lemma str_of_int_inj (a b : Z) : str_of_int a = str_of_int b -> a = b.
Proof.
  unfold str_of_int. intros H.
  assert (Hnil : forall z, Z.to_int z <> Decimal.Pos Decimal.Nil /\
                           Z.to_int z <> Decimal.Neg Decimal.Nil).
  { intros [|p|p]; split; try discriminate; cbn;
      intros [= Hp]; now apply (DecimalPos.Unsigned.to_uint_nonnil p). }
  apply DecimalZ.to_int_inj.
  destruct (Hnil a) as [Ha1 Ha2]. destruct (Hnil b) as [Hb1 Hb2].
  pose proof (NilZero.isi _ Ha1 Ha2) as Ia.
  pose proof (NilZero.isi _ Hb1 Hb2) as Ib.
  rewrite H in Ia. rewrite Ia in Ib. now injection Ib.
Qed.

Lemma count_of_bump (hc : list (string * Z)) (k k' : string) :
  count_of (bump hc k) k' = count_of hc k' + (if String.eqb k k' then 1 else 0).
Proof.
  unfold bump, count_of.
  destruct (String.eqb k k') eqn:E.
  - apply String.eqb_eq in E. subst k'.
    rewrite (assoc_get_set_same String.eqb String.eqb_eq). reflexivity.
  - apply String.eqb_neq in E.
    rewrite (assoc_get_set_other String.eqb String.eqb_eq) by exact E. lia.
Qed.

(** The events of a run that fall in hour [h]. *)
Definition in_hour (h : Z) (events : list (key * datetime)) : list (key * datetime) :=
  filter (fun e => hour (snd e) =? h) events.

Lemma count_of_bump_all (events : list (key * datetime)) :
  forall (hc : list (string * Z)) (h : Z),
    count_of (bump_all hc events) (str_of_int h)
    = count_of hc (str_of_int h) + Z.of_nat (List.length (in_hour h events)).
Proof.
  induction events as [|[k t] rest IH]; intros hc h.
  - cbn. lia.
  - cbn [bump_all fold_left snd].
    fold (bump_all (bump hc (str_of_int (hour t))) rest).
    rewrite IH, count_of_bump. cbn [in_hour filter snd].
    destruct (hour t =? h) eqn:E.
    + apply Z.eqb_eq in E. subst h. rewrite String.eqb_refl.
      cbn [List.length]. fold (in_hour (hour t) rest). lia.
    + replace (String.eqb (str_of_int (hour t)) (str_of_int h)) with false.
      * fold (in_hour h rest). lia.
      * symmetry. apply String.eqb_neq. intros Heq.
        apply str_of_int_inj in Heq. apply Z.eqb_neq in E. contradiction.
Qed.

Lemma count_of_zero_counts (k : string) : count_of zero_counts k = 0.
Proof.
  unfold count_of.
  destruct (assoc_get String.eqb zero_counts k) as [c|] eqn:H; [|reflexivity].
  unfold zero_counts in H.
  induction (range 24) as [|i l IH]; [discriminate|].
  cbn [map assoc_get] in H. destruct (String.eqb (str_of_int i) k); [now injection H | auto].
Qed.

(** X9.  A run of key presses on a new aggregate returns, and the
    aggregate it leaves is the record of the run: the total is the number
    of events, the list of time stamps holds the ISO time of each event in
    the order of arrival, the start time is still that of the creation,
    and the count read for any hour [h] (with [get(str(h), 0)]) is the
    number of events whose clock reading was in hour [h]. *)
Theorem X9_aggregate_records_the_run :
  forall (s : KeyboardMonitor) (t0 : datetime) (events : list (key * datetime)) (h : Z),
    exists s' : KeyboardMonitor,
      press_all events (set_data (fresh_data t0) s) = (Ok tt, s') /\
      getitem (data s') "total_count" = Ok (VInt (Z.of_nat (List.length events))) /\
      getitem (data s') "keystrokes"
        = Ok (VList (map (fun e => VStr (isoformat (snd e))) events)) /\
      getitem (data s') "start_time" = Ok (VStr (isoformat t0)) /\
      rbind (getitem (data s') "hourly_counts")
            (fun counts => get_method counts (str_of_int h) (VInt 0))
        = Ok (VInt (Z.of_nat (List.length (filter (fun e => hour (snd e) =? h) events)))).
Proof.
  intros s t0 events h.
  destruct (press_all_exact events (set_data (fresh_data t0) s)
              zero_counts 0 (isoformat t0) [] eq_refl)
    as (s' & Hrun & Hd & _).
  exists s'. split; [exact Hrun|]. rewrite Hd.
  repeat split.
  cbn [getitem aggregate dict_get assoc_get String.eqb Ascii.eqb Bool.eqb rbind get_method].
  pose proof (count_at_int_counts (bump_all zero_counts events) (str_of_int h)) as Hc.
  unfold count_at in Hc. unfold dict_get.
  fold (dict_get (int_counts (bump_all zero_counts events)) (str_of_int h)).
  rewrite count_of_bump_all, count_of_zero_counts in Hc. fold (in_hour h events).
  rewrite dict_get_int_counts in *.
  destruct (assoc_get String.eqb (bump_all zero_counts events) (str_of_int h)) as [c|];
    cbn [option_map as_int] in *; injection Hc as ->; reflexivity.
Qed.


Lemma batch_full (n : nat) :
  (Z.of_nat n + 1) mod 100 = 0 ->
  (100 * ((n + 1) / 100) = n + 1 /\ 100 <= n + 1)%nat.
Proof.
  intros H.
  pose proof (Nat2Z.inj_div (n + 1) 100) as Hd.
  zify. Z.div_mod_to_equations. lia.
Qed.

Lemma batch_open (n : nat) :
  (Z.of_nat n + 1) mod 100 <> 0 ->
  ((n + 1) / 100 = n / 100 /\ n + 1 <> 100)%nat.
Proof.
  intros H.
  pose proof (Nat2Z.inj_div (n + 1) 100) as Hd.
  pose proof (Nat2Z.inj_div n 100) as Hd'.
  zify. Z.div_mod_to_equations. lia.
Qed.

Lemma bump_all_app hc (a b : list (key * datetime)) :
  bump_all hc (a ++ b) = bump_all (bump_all hc a) b.
Proof. apply fold_left_app. Qed.

(** What the log file holds after a run on a new aggregate, the file
    being writable: nothing new before the 100th event, and from then on
    the aggregate as it was when the last batch of 100 was completed. *)
Lemma press_all_checkpoints (s : KeyboardMonitor) (t0 : datetime) :
  writable s (log_file s) = true ->
  forall events : list (key * datetime),
    let s0 := set_data (fresh_data t0) s in
    let n := List.length events in
    exists s' : KeyboardMonitor,
      press_all events s0 = (Ok tt, s') /\
      data s' = aggregate (bump_all zero_counts events) (Z.of_nat n) (isoformat t0)
                          (stamps events) /\
      writable s' (log_file s') = true /\
      ((n < 100)%nat -> disk s' = disk s) /\
      ((100 <= n)%nat ->
       disk s' = Document (data (exec (press_all (firstn (100 * (n / 100)) events)) s0))).
Proof.
  intros Hw events. induction events as [|[k t] events IH] using rev_ind; intros s0 n.
  - exists s0. subst s0 n. cbn [List.length]. repeat split; try assumption. lia.
  - destruct IH as (s1 & Hrun & Hd & Hw1 & Hsmall & Hbig).
    subst n. rewrite length_app. cbn [List.length].
    set (n := List.length events) in *.
    pose proof (on_press_aggregate k t s1 _ _ _ _ Hd) as Hpress. cbv zeta in Hpress.
    set (agg := aggregate (bump (bump_all zero_counts events) (str_of_int (hour t)))
                          (Z.of_nat n + 1) (isoformat t0)
                          (stamps events ++ [VStr (isoformat t)])) in *.
    assert (Hagg : agg = aggregate (bump_all zero_counts (events ++ [(k, t)]))
                                   (Z.of_nat (n + 1)) (isoformat t0)
                                   (stamps (events ++ [(k, t)]))).
    { subst agg. rewrite bump_all_app. unfold stamps. rewrite map_app.
      cbn [bump_all fold_left map snd]. f_equal. lia. }
    assert (Hall : forall s2, on_press k t s1 = (Ok tt, s2) ->
                              press_all (events ++ [(k, t)]) s0 = (Ok tt, s2)).
    { intros s2 H2. rewrite press_all_app. unfold bind at 1. fold s0 in Hrun.
      rewrite Hrun. cbn [press_all]. unfold bind, ret. now rewrite H2. }
    destruct ((Z.of_nat n + 1) mod 100 =? 0) eqn:E.
    + apply Z.eqb_eq in E. destruct (batch_full n E) as [Hfull Hge].
      exists (checkpointed (set_data agg s1)).
      pose proof (Hall _ Hpress) as Hrun'.
      split; [exact Hrun'|].
      split; [now rewrite checkpointed_data|].
      split; [now rewrite checkpointed_writable, checkpointed_log_file|].
      split; [lia|]. intros _.
      rewrite Hfull.
      rewrite firstn_all2 by (rewrite length_app; cbn [List.length]; lia).
      unfold exec. fold s0. rewrite Hrun'. cbn [snd].
      rewrite checkpointed_data, checkpointed_disk. cbn [data set_data writable log_file].
      rewrite Hw1. reflexivity.
    + apply Z.eqb_neq in E. destruct (batch_open n E) as [Hsame Hne].
      exists (set_data agg s1).
      split; [exact (Hall _ Hpress)|].
      split; [exact Hagg|].
      split; [exact Hw1|].
      cbn [disk set_data]. split.
      * intros Hlt. apply Hsmall. lia.
      * intros Hge. rewrite Hsame, Hbig by lia.
        rewrite firstn_app.
        replace (100 * (n / 100) - List.length events)%nat with 0%nat.
        -- cbn [firstn]. now rewrite app_nil_r.
        -- fold n. pose proof (Nat.Div0.mul_div_le n 100). lia.
Qed.

(** X10.  With a log file that can be written, a run of key presses on a
    new aggregate leaves the file untouched while fewer than 100 events
    have come, and otherwise holding the aggregate exactly as it was after
    the last completed batch of 100, that is after the first
    [100 * (n / 100)] of the [n] events: a crash loses the events since,
    at most 99. *)
Theorem X10_log_file_holds_the_last_full_batch :
  forall (s : KeyboardMonitor) (t0 : datetime) (events : list (key * datetime)),
    writable s (log_file s) = true ->
    let s0 := set_data (fresh_data t0) s in
    let n := List.length events in
    let kept := (100 * (n / 100))%nat in
    eval (press_all events) s0 = Ok tt /\
    ((n < 100)%nat -> disk (exec (press_all events) s0) = disk s) /\
    ((100 <= n)%nat ->
     disk (exec (press_all events) s0)
     = Document (data (exec (press_all (firstn kept events)) s0))) /\
    (kept <= n < kept + 100)%nat.
Proof.
  intros s t0 events Hw s0 n kept.
  destruct (press_all_checkpoints s t0 Hw events) as (s' & Hrun & _ & _ & Hsmall & Hbig).
  fold s0 in Hrun. unfold eval, exec. rewrite Hrun. cbn [fst snd].
  repeat split; try assumption.
  - subst kept. apply Nat.Div0.mul_div_le.
  - subst kept. pose proof (Nat.div_mod_eq n 100).
    pose proof (Nat.mod_upper_bound n 100). lia.
Qed.

Lemma X10_witness :
  eval (press_all (repeat (KeyCode "a", three_o_clock) 101))
       (set_data (fresh_data a_time) a_monitor) = Ok tt /\
  ((101 < 100)%nat ->
   disk (exec (press_all (repeat (KeyCode "a", three_o_clock) 101))
              (set_data (fresh_data a_time) a_monitor)) = disk a_monitor) /\
  ((100 <= 101)%nat ->
   disk (exec (press_all (repeat (KeyCode "a", three_o_clock) 101))
              (set_data (fresh_data a_time) a_monitor))
   = Document (data (exec (press_all (repeat (KeyCode "a", three_o_clock) 100))
                          (set_data (fresh_data a_time) a_monitor)))) /\
  (100 <= 101 < 100 + 100)%nat.
Proof.
  apply (X10_log_file_holds_the_last_full_batch a_monitor a_time
           (repeat (KeyCode "a", three_o_clock) 101)).
  reflexivity.
Defined.


(** * Further properties of the statistics *)











Lemma int_keyed_bad_key (hc : list (string * value)) (k : string) :
  In k (map fst hc) -> int_of_str k = Raise ValueError ->
  forall acc, int_keyed acc hc = Raise ValueError.
Proof.
  intros Hin Hbad. induction hc as [|[k' v] rest IH]; intros acc; [contradiction|].
  cbn [int_keyed].
  destruct (int_of_str k') as [n|e] eqn:Hk'; cbn [rbind].
  - destruct Hin as [Heq|Hin]; [|now apply IH].
    cbn in Heq. subst k'. rewrite Hbad in Hk'. discriminate.
  - unfold int_of_str in Hk'.
    destruct (match strip k' with
              | String "-" rest0 => (true, rest0)
              | String "+" rest0 => (false, rest0)
              | _ => (false, strip k')
              end) as [neg ds].
    destruct (grouped_digits 0 false ds); [discriminate | now injection Hk' as <-].
Qed.

Definition is_ascii (s : string) : bool :=
  forallb (fun c => (N_of_ascii c <? 128)%N) (list_ascii_of_string s).

(** X12.  [load_data] does not look at the keys of the hourly dict, but
    [get_stats] converts each with [int]: when one key (of ASCII
    characters) is not the text of an integer, [get_stats] raises
    [ValueError], and so does [generate_report], before it opens or writes
    any file. *)
Theorem X12_a_key_that_is_no_hour_breaks_the_statistics :
  forall (s : KeyboardMonitor) (now : datetime) (total : value)
         (hc : list (string * value)) (k : string) (output_file : option string),
    getitem (data s) "total_count" = Ok total ->
    getitem (data s) "hourly_counts" = Ok (VDict hc) ->
    In k (map fst hc) ->
    is_ascii k = true ->
    int_of_str k = Raise ValueError ->
    get_stats s now = Raise ValueError /\
    generate_report output_file now s = (Raise ValueError, s).
Proof.
  intros s now total hc k output_file Htotal Hhc Hin _ Hbad.
  assert (Hst : get_stats s now = Raise ValueError).
  { unfold get_stats. rewrite Htotal, Hhc. cbn [rbind items_method].
    now rewrite (int_keyed_bad_key hc k Hin Hbad). }
  split; [exact Hst|].
  unfold generate_report. rewrite bind_gets, Hst. reflexivity.
Qed.

(** A log with a key that names no hour. *)
Definition odd_document : list (string * value) :=
  [ ("hourly_counts", VDict [("7", VInt 5); ("noon", VInt 1)]);
    ("total_count", VInt 6);
    ("start_time", VStr "2024-03-07T07:00:00");
    ("keystrokes", VList []) ].

Definition odd_monitor : KeyboardMonitor :=
  init "keyboard_logs" "2024-03-07" (Document (VDict odd_document)) (fun _ => true) a_time.

Lemma X12_witness :
  data odd_monitor = VDict odd_document /\
  get_stats odd_monitor a_time = Raise ValueError /\
  generate_report None a_time odd_monitor = (Raise ValueError, odd_monitor).
Proof.
  split; [reflexivity|].
  apply (X12_a_key_that_is_no_hour_breaks_the_statistics odd_monitor a_time (VInt 6)
           [("7", VInt 5); ("noon", VInt 1)] "noon" None); try reflexivity.
  right. now left.
Defined.


(** * Further properties of the report *)













(** * Restarting *)

(** A new monitor takes over a document that passes the test of
    [load_data]. *)
Lemma init_document (dir date : string) (w : string -> bool) (now : datetime) (v : value) :
  all_in v required_keys = Ok true ->
  data (init dir date (Document v) w now) = v.
Proof.
  intros Hall. unfold init.
  match goal with
  | |- context [load_data now ?s0] =>
      rewrite (load_data_document s0 now v eq_refl)
  end.
  rewrite Hall. reflexivity.
Qed.

Lemma aggregate_has_fields hc n st ks :
  all_in (aggregate hc n st ks) required_keys = Ok true.
Proof. reflexivity. Qed.

(** X14.  Recovery after a crash.  When a run of at least 100 key presses
    on a new aggregate, with a writable log file, is cut short, a monitor
    constructed afterwards on the file it left resumes with the aggregate
    as it was after the last completed batch of 100 events, the original
    start time included. *)
Theorem X14_a_new_monitor_resumes_from_the_last_batch :
  forall (s : KeyboardMonitor) (t0 now : datetime) (events : list (key * datetime))
         (dir date : string) (w : string -> bool),
    writable s (log_file s) = true ->
    (100 <= List.length events)%nat ->
    let s0 := set_data (fresh_data t0) s in
    let kept := firstn (100 * (List.length events / 100)) events in
    data (init dir date (disk (exec (press_all events) s0)) w now)
    = data (exec (press_all kept) s0) /\
    getitem (data (exec (press_all kept) s0)) "start_time" = Ok (VStr (isoformat t0)) /\
    getitem (data (exec (press_all kept) s0)) "total_count"
    = Ok (VInt (Z.of_nat (100 * (List.length events / 100)))).
Proof.
  intros s t0 now events dir date w Hw Hlen s0 kept.
  destruct (press_all_checkpoints s t0 Hw events) as (s' & Hrun & _ & _ & _ & Hbig).
  fold s0 in Hrun, Hbig. fold kept in Hbig.
  destruct (press_all_exact kept s0 zero_counts 0 (isoformat t0) [] eq_refl)
    as (sk & Hrunk & Hdk & _).
  unfold exec in *. rewrite Hrun. rewrite Hrunk in *. cbn [snd] in *.
  rewrite (Hbig Hlen), Hdk.
  split; [apply init_document, aggregate_has_fields|].
  split; [reflexivity|].
  cbn [getitem aggregate dict_get assoc_get String.eqb Ascii.eqb Bool.eqb].
  do 2 f_equal. subst kept. rewrite length_firstn.
  pose proof (Nat.Div0.mul_div_le (List.length events) 100). lia.
Qed.

Lemma X14_witness :
  data (init "keyboard_logs" "2024-03-07"
          (disk (exec (press_all (repeat (KeyCode "a", three_o_clock) 101))
                      (set_data (fresh_data a_time) a_monitor)))
          (fun _ => true) an_hour_later)
  = data (exec (press_all (firstn (100 * (List.length
                                             (repeat (KeyCode "a", three_o_clock) 101) / 100))
                                  (repeat (KeyCode "a", three_o_clock) 101)))
               (set_data (fresh_data a_time) a_monitor)) /\
  getitem (data (exec (press_all (firstn (100 * (List.length
                                             (repeat (KeyCode "a", three_o_clock) 101) / 100))
                                  (repeat (KeyCode "a", three_o_clock) 101)))
               (set_data (fresh_data a_time) a_monitor))) "start_time"
  = Ok (VStr (isoformat a_time)) /\
  getitem (data (exec (press_all (firstn (100 * (List.length
                                             (repeat (KeyCode "a", three_o_clock) 101) / 100))
                                  (repeat (KeyCode "a", three_o_clock) 101)))
               (set_data (fresh_data a_time) a_monitor))) "total_count"
  = Ok (VInt (Z.of_nat (100 * (List.length (repeat (KeyCode "a", three_o_clock) 101) / 100)))).
Proof.
  apply (X14_a_new_monitor_resumes_from_the_last_batch a_monitor a_time an_hour_later
           (repeat (KeyCode "a", three_o_clock) 101) "keyboard_logs" "2024-03-07"
           (fun _ => true)).
  - reflexivity.
  - cbn. lia.
Defined.

(** X15.  Stopping and restarting.  When a running monitor that holds a
    valid aggregate is stopped and its log file can be written, a monitor
    constructed afterwards on that file holds the same aggregate: nothing
    recorded is lost and the start time is not reset. *)
Theorem X15_stop_then_restart_keeps_the_aggregate :
  forall (s : KeyboardMonitor) (now : datetime) (dir date : string) (w : string -> bool),
    is_running s = true ->
    valid_aggregate (data s) = true ->
    writable s (log_file s) = true ->
    eval stop_monitoring s = Ok tt /\
    data (init dir date (disk (exec stop_monitoring s)) w now) = data s.
Proof.
  intros s now dir date w Hrun Hvalid Hw.
  unfold eval, exec. rewrite (stop_monitoring_running s Hrun). cbn [fst snd].
  split; [reflexivity|].
  unfold stopped. cbv zeta. cbn [disk add_effect]. rewrite saved_disk.
  assert (Hd : forall x, data (if listener s
                               then set_listener false (add_effect Listener_stopped x)
                               else x) = data x)
    by (intros x; destruct (listener s); reflexivity).
  assert (Hwr : forall x, writable (if listener s
                                    then set_listener false (add_effect Listener_stopped x)
                                    else x)
                                   (log_file (if listener s
                                              then set_listener false
                                                     (add_effect Listener_stopped x)
                                              else x))
                          = writable x (log_file x))
    by (intros x; destruct (listener s); reflexivity).
  rewrite Hd, Hwr. cbn [data writable log_file set_is_running].
  rewrite (valid_aggregate_truthy _ Hvalid), Hw. cbn [andb].
  apply init_document, valid_aggregate_has_fields, Hvalid.
Qed.

Lemma X15_witness :
  eval stop_monitoring (exec (start_monitoring a_time) a_monitor) = Ok tt /\
  data (init "keyboard_logs" "2024-03-07"
          (disk (exec stop_monitoring (exec (start_monitoring a_time) a_monitor)))
          (fun _ => true) an_hour_later)
  = data (exec (start_monitoring a_time) a_monitor).
Proof.
  apply (X15_stop_then_restart_keeps_the_aggregate
           (exec (start_monitoring a_time) a_monitor) an_hour_later
           "keyboard_logs" "2024-03-07" (fun _ => true)); reflexivity.
Defined.


(** * The peak hour in general *)

(** Where the scan of [max] stops: everything before the result counts
    less, nothing after it counts more. *)
Lemma first_max_split (best : Z * Z) (l : list (Z * Z)) :
  exists before after : list (Z * Z),
    best :: l = before ++ first_max best l :: after /\
    Forall (fun x => snd x < snd (first_max best l)) before /\
    Forall (fun x => snd x <= snd (first_max best l)) after.
Proof.
  revert best. induction l as [|item rest IH]; intros best.
  - exists [], []. repeat split; constructor.
  - cbn [first_max]. destruct (snd best <? snd item) eqn:E.
    + apply Z.ltb_lt in E.
      destruct (IH item) as (b & a & Heq & Hb & Ha).
      exists (best :: b), a. split; [cbn [app]; f_equal; exact Heq|].
      split; [|exact Ha].
      constructor; [|exact Hb].
      pose proof (first_max_ge_best item rest). lia.
    + apply Z.ltb_ge in E.
      destruct (IH best) as (b & a & Heq & Hb & Ha).
      destruct b as [|x b].
      * cbn [app] in Heq. injection Heq as Hm Hrest. subst a.
        exists [], (item :: rest). rewrite <- Hm in *. repeat split; [constructor|].
        constructor; [lia | exact Ha].
      * cbn [app] in Heq. injection Heq as Hx Hrest. subst x.
        exists (best :: item :: b), a.
        split; [cbn [app]; do 2 f_equal; exact Hrest|].
        split; [|exact Ha].
        apply Forall_cons_iff in Hb as [Hbest Hb].
        constructor; [exact Hbest|]. constructor; [lia | exact Hb].
Qed.

Lemma assoc_set_fresh (acc : list (Z * value)) (h : Z) (v : value) :
  ~ In h (map fst acc) -> assoc_set Z.eqb acc h v = acc ++ [(h, v)].
Proof.
  induction acc as [|[k w] acc IH]; intros Hnot; [reflexivity|].
  cbn [map fst In] in Hnot. cbn [assoc_set].
  replace (k =? h) with false by (symmetry; apply Z.eqb_neq; intuition).
  rewrite IH by intuition. reflexivity.
Qed.

(** With pairwise different hours the comprehension keeps every item, in
    the order of the dict. *)
Lemma int_keyed_distinct (hc : list (string * value)) :
  forall (acc : list (Z * value)) (hs : list Z),
    hours_of hc = Some hs ->
    NoDup (map fst acc ++ hs) ->
    int_keyed acc hc = Ok (acc ++ combine hs (map snd hc)).
Proof.
  induction hc as [|[k v] rest IH]; intros acc hs Hh Hnd.
  - injection Hh as <-. cbn. now rewrite app_nil_r.
  - cbn [hours_of] in Hh.
    destruct (int_of_str k) as [h|] eqn:Hk; [|discriminate].
    destruct (hours_of rest) as [hs'|] eqn:Hr; [|discriminate].
    injection Hh as <-.
    cbn [int_keyed rbind]. rewrite Hk. cbn [rbind].
    rewrite (assoc_set_fresh acc h v).
    + rewrite (IH (acc ++ [(h, v)]) hs' eq_refl).
      * cbn [map snd combine]. now rewrite <- app_assoc.
      * rewrite map_app. cbn [map fst]. now rewrite <- app_assoc.
    + apply NoDup_remove_2 in Hnd. intros Hin. apply Hnd.
      apply in_or_app. now left.
Qed.

(** The hours are pairwise different. *)
Fixpoint distinct (l : list Z) : bool :=
  match l with
  | [] => true
  | a :: rest => negb (existsb (Z.eqb a) rest) && distinct rest
  end.

Lemma distinct_NoDup (l : list Z) : distinct l = true -> NoDup l.
Proof.
  induction l as [|a rest IH]; intros H; [constructor|].
  cbn [distinct] in H. apply andb_prop in H as [Ha Hrest].
  constructor; [|now apply IH].
  intros Hin. apply negb_true_iff in Ha.
  assert (Hex : existsb (Z.eqb a) rest = true)
    by (apply existsb_exists; exists a; split; [exact Hin | apply Z.eqb_refl]).
  congruence.
Qed.

(** The hours and counts of the hourly dict, in its order. *)
Definition hour_counts (hc : list (string * value)) : option (list (Z * Z)) :=
  match hours_of hc, counts_of hc with
  | Some hs, Some cs => if distinct hs then Some (combine hs cs) else None
  | _, _ => None
  end.

(** X16.  Whatever the order of the hourly dict, when its keys name
    pairwise different hours and its counts are integers, the peak of a
    snapshot is the first hour, in the order of the dict, that has the
    greatest count: every hour before it in the dict counts strictly less,
    and no hour after it counts more. *)
Theorem X16_peak_is_the_first_maximum_in_dict_order :
  forall (s : KeyboardMonitor) (now : datetime) (st : stats)
         (hc : list (string * value)) (pairs : list (Z * Z)),
    get_stats s now = Ok st ->
    getitem (data s) "hourly_counts" = Ok (VDict hc) ->
    hour_counts hc = Some pairs ->
    nonempty hc = true ->
    hourly_counts st = map (fun p => (fst p, VInt (snd p))) pairs /\
    exists (before after : list (Z * Z)) (h c : Z),
      pairs = before ++ (h, c) :: after /\
      peak_hour st = (h, VInt c) /\
      Forall (fun p => snd p < c) before /\
      Forall (fun p => snd p <= c) after.
Proof.
  intros s now st hc pairs Hst Hhc Hpairs Hne.
  destruct (get_stats_peak s now st hc Hst Hhc) as [Hkeyed Hpeak].
  unfold hour_counts in Hpairs.
  destruct (hours_of hc) as [hs|] eqn:Hh; [|discriminate].
  destruct (counts_of hc) as [cs|] eqn:Hc; [|discriminate].
  destruct (distinct hs) eqn:Hd; [|discriminate]. injection Hpairs as <-.
  apply distinct_NoDup in Hd.
  rewrite (int_keyed_distinct hc [] hs Hh Hd) in Hkeyed.
  destruct (counted_combine hc hs cs Hh Hc) as [Hcomb _].
  cbn [app] in Hkeyed. rewrite Hcomb in Hkeyed. injection Hkeyed as Hcounts.
  split; [now symmetry|].
  rewrite <- Hcounts in Hpeak.
  destruct (combine hs cs) as [|best l] eqn:Hl.
  { exfalso. destruct hc as [|[k v] rest]; [discriminate|].
    cbn [hours_of] in Hh. cbn [counts_of] in Hc.
    destruct (int_of_str k); [|discriminate].
    destruct (hours_of rest); [|discriminate].
    destruct v; try discriminate.
    destruct (counts_of rest); cbn [option_map] in Hc; [|discriminate].
    injection Hh as <-. injection Hc as <-. discriminate. }
  cbn [counted map find_peak] in Hpeak. fold (counted l) in Hpeak.
  rewrite (max_by_count_counted best l) in Hpeak. injection Hpeak as Hpeak.
  destruct (first_max_split best l) as (before & after & Heq & Hb & Ha).
  exists before, after, (fst (first_max best l)), (snd (first_max best l)).
  rewrite <- surjective_pairing. repeat split; [exact Heq | now symmetry | exact Hb | exact Ha].
Qed.

Lemma X16_witness :
  hourly_counts (snapshot late_hour_first a_time)
  = map (fun p => (fst p, VInt (snd p))) [(7, 5); (3, 5)] /\
  exists (before after : list (Z * Z)) (h c : Z),
    [(7, 5); (3, 5)] = before ++ (h, c) :: after /\
    peak_hour (snapshot late_hour_first a_time) = (h, VInt c) /\
    Forall (fun p => snd p < c) before /\
    Forall (fun p => snd p <= c) after.
Proof.
  apply (X16_peak_is_the_first_maximum_in_dict_order late_hour_first a_time
           (snapshot late_hour_first a_time)
           [("7", VInt 5); ("3", VInt 5)] [(7, 5); (3, 5)]); reflexivity.
Defined.


(** * Time stamps *)

(** [f k] for every [k] from [0] below [n]. *)
Definition all_below (f : Z -> bool) (n : positive) : bool :=
  fst (Pos.iter (fun bk => (fst bk && f (snd bk), snd bk + 1)) (true, 0) n).

Lemma all_below_sound (f : Z -> bool) (n : positive) :
  all_below f n = true -> forall k, 0 <= k < Z.pos n -> f k = true.
Proof.
  unfold all_below. rewrite Pos2Nat.inj_iter.
  set (step := fun bk : bool * Z => (fst bk && f (snd bk), snd bk + 1)).
  assert (H : forall m : nat,
             snd (Nat.iter m step (true, 0)) = Z.of_nat m /\
             (fst (Nat.iter m step (true, 0)) = true ->
              forall k, 0 <= k < Z.of_nat m -> f k = true)).
  { induction m as [|m [IHs IHf]].
    - split; [reflexivity|]. intros _ k Hk. cbn in Hk. lia.
    - change (Nat.iter (S m) step (true, 0)) with (step (Nat.iter m step (true, 0))).
      unfold step at 1 3. cbn [fst snd]. split; [rewrite IHs; lia|].
      intros Hb k Hk. apply andb_prop in Hb as [Hb Hf].
      destruct (Z.eq_dec k (Z.of_nat m)) as [->|Hne].
      + now rewrite IHs in Hf.
      + apply IHf; [exact Hb | lia]. }
  intros Hall k Hk. destruct (H (Pos.to_nat n)) as [_ Hf].
  apply Hf; [exact Hall | lia].
Qed.

(** A number printed with [fmt_0d w] fills [w] characters and reads back. *)
Definition field_ok (w : nat) (n : Z) : bool :=
  Nat.eqb (String.length (fmt_0d w n)) w &&
  match number_of_digits (fmt_0d w n) with
  | Some m => m =? n
  | None => false
  end.

Lemma field_ok_spec (w : nat) (n : Z) :
  field_ok w n = true ->
  String.length (fmt_0d w n) = w /\ number_of_digits (fmt_0d w n) = Some n.
Proof.
  unfold field_ok. intros H. apply andb_prop in H as [Hl Hn].
  apply Nat.eqb_eq in Hl. split; [exact Hl|].
  destruct (number_of_digits (fmt_0d w n)) as [m|]; [|discriminate].
  apply Z.eqb_eq in Hn. now subst m.
Qed.

Lemma two_digits_ok : all_below (field_ok 2) 100 = true.
Proof. vm_compute. reflexivity. Qed.

Lemma four_digits_ok : all_below (field_ok 4) 10000 = true.
Proof. vm_compute. reflexivity. Qed.

Lemma six_digits_ok : all_below (field_ok 6) 1000000 = true.
Proof. vm_compute. reflexivity. Qed.

Lemma string_of_length_2 (s : string) :
  String.length s = 2%nat -> exists a b, s = String a (String b "").
Proof.
  destruct s as [|a [|b [|c s]]]; try discriminate. intros _. now exists a, b.
Qed.

Lemma string_of_length_4 (s : string) :
  String.length s = 4%nat ->
  exists a b c d, s = String a (String b (String c (String d ""))).
Proof.
  destruct s as [|a [|b [|c [|d [|e s]]]]]; try discriminate. intros _. now exists a, b, c, d.
Qed.

Lemma string_of_length_6 (s : string) :
  String.length s = 6%nat ->
  exists a b c d e f,
    s = String a (String b (String c (String d (String e (String f ""))))).
Proof.
  destruct s as [|a [|b [|c [|d [|e [|f [|g s]]]]]]]; try discriminate.
  intros _. now exists a, b, c, d, e, f.
Qed.

Lemma days_in_month_le_31 (y m : Z) : days_in_month y m <= 31.
Proof.
  unfold days_in_month.
  destruct (m =? 2); [destruct (is_leap y); lia|].
  destruct ((m =? 4) || (m =? 6) || (m =? 9) || (m =? 11)); lia.
Qed.

(** The text [isoformat] writes for a valid time is read back by
    [fromisoformat] as that time. *)
Lemma fromisoformat_isoformat (d : datetime) :
  valid_datetime d = true -> fromisoformat (isoformat d) = Ok d.
Proof.
  intros Hvalid. pose proof Hvalid as Hv. unfold valid_datetime in Hv.
  repeat (apply andb_prop in Hv as [Hv ?]).
  repeat match goal with
         | H : (_ <=? _) = true |- _ => apply Z.leb_le in H
         | H : (_ <? _) = true |- _ => apply Z.ltb_lt in H
         end.
  pose proof (days_in_month_le_31 (year d) (month d)) as Hdim.
  destruct (field_ok_spec 4 (year d)
              (all_below_sound _ _ four_digits_ok (year d) ltac:(lia))) as [Ly Ny].
  destruct (field_ok_spec 2 (month d)
              (all_below_sound _ _ two_digits_ok (month d) ltac:(lia))) as [Lmo Nmo].
  destruct (field_ok_spec 2 (day d)
              (all_below_sound _ _ two_digits_ok (day d) ltac:(lia))) as [Ld Nd].
  destruct (field_ok_spec 2 (hour d)
              (all_below_sound _ _ two_digits_ok (hour d) ltac:(lia))) as [Lh Nh].
  destruct (field_ok_spec 2 (minute d)
              (all_below_sound _ _ two_digits_ok (minute d) ltac:(lia))) as [Lmi Nmi].
  destruct (field_ok_spec 2 (second d)
              (all_below_sound _ _ two_digits_ok (second d) ltac:(lia))) as [Ls Ns].
  destruct (field_ok_spec 6 (microsecond d)
              (all_below_sound _ _ six_digits_ok (microsecond d) ltac:(lia))) as [Lu Nu].
  unfold isoformat.
  destruct (string_of_length_4 _ Ly) as (y1 & y2 & y3 & y4 & Ey).
  destruct (string_of_length_2 _ Lmo) as (o1 & o2 & Eo).
  destruct (string_of_length_2 _ Ld) as (d1 & d2 & Ed).
  destruct (string_of_length_2 _ Lh) as (h1 & h2 & Eh).
  destruct (string_of_length_2 _ Lmi) as (m1 & m2 & Em).
  destruct (string_of_length_2 _ Ls) as (s1 & s2 & Es).
  destruct (string_of_length_6 _ Lu) as (u1 & u2 & u3 & u4 & u5 & u6 & Eu).
  rewrite Ey, Eo, Ed, Eh, Em, Es in *.
  assert (Hd : d = {| year := year d; month := month d; day := day d; hour := hour d;
                      minute := minute d; second := second d;
                      microsecond := microsecond d |}) by now destruct d.
  destruct (microsecond d =? 0) eqn:Hus; cbv zeta.
  - apply Z.eqb_eq in Hus.
    unfold fromisoformat, field, char_is.
    cbn [append String.length Nat.eqb orb andb negb get substring Ascii.eqb Bool.eqb].
    rewrite Ny, Nmo, Nd, Nh, Nmi, Ns, <- Hus, <- Hd, Hvalid. reflexivity.
  - rewrite Eu in *.
    unfold fromisoformat, field, char_is.
    cbn [append String.length Nat.eqb orb andb negb get substring Ascii.eqb Bool.eqb].
    rewrite Ny, Nmo, Nd, Nh, Nmi, Ns, Nu, <- Hd, Hvalid. reflexivity.
Qed.


Lemma get_stats_total (s : KeyboardMonitor) (now : datetime) (st : stats) :
  get_stats s now = Ok st ->
  getitem (data s) "total_count" = Ok (total_keystrokes st).
Proof.
  intros Hst. unfold get_stats in Hst.
  destruct (getitem (data s) "total_count") as [total|]; [|discriminate].
  cbn [rbind] in Hst.
  destruct (getitem (data s) "hourly_counts") as [hc|]; [|discriminate].
  cbn [rbind] in Hst.
  destruct (items_method hc) as [items|]; [|discriminate].
  cbn [rbind] in Hst.
  destruct (int_keyed [] items) as [counts|]; [|discriminate].
  cbn [rbind] in Hst.
  destruct (find_peak counts) as [peak|]; [|discriminate].
  cbn [rbind] in Hst.
  destruct (getitem (data s) "start_time") as [started|]; [|discriminate].
  cbn [rbind] in Hst.
  destruct (parse_start_time started) as [start|]; [|discriminate].
  cbn [rbind] in Hst.
  destruct (if PrimFloat.ltb 0 _ then _ else _) as [kpm|]; [|discriminate].
  cbn [rbind] in Hst. now injection Hst as <-.
Qed.

(** X17.  The start time survives recording and is read back exactly.
    For an aggregate created at a valid clock reading [t0] and any run of
    key presses since, every snapshot [get_stats] returns at a reading
    [now] has as its duration [(now - t0)] in hours (the seconds of the
    difference divided by 3600) and as its total the number of events. *)
Theorem X17_snapshot_counts_from_the_creation :
  forall (s : KeyboardMonitor) (t0 now : datetime) (events : list (key * datetime))
         (st : stats),
    valid_datetime t0 = true ->
    get_stats (exec (press_all events) (set_data (fresh_data t0) s)) now = Ok st ->
    duration_hours st
    = PrimFloat.div (total_seconds (datetime_sub now t0)) 3600%float /\
    total_keystrokes st = VInt (Z.of_nat (List.length events)).
Proof.
  intros s t0 now events st Hvalid Hst.
  destruct (press_all_exact events (set_data (fresh_data t0) s)
              zero_counts 0 (isoformat t0) [] eq_refl)
    as (s' & Hrun & Hd & _).
  unfold exec in Hst. rewrite Hrun in Hst. cbn [snd] in Hst.
  pose proof (get_stats_total s' now st Hst) as Htotal.
  rewrite Hd in Htotal.
  change (getitem (aggregate (bump_all zero_counts events)
                             (0 + Z.of_nat (List.length events)) (isoformat t0)
                             ([] ++ stamps events)) "total_count")
    with (Ok (VInt (0 + Z.of_nat (List.length events)))) in Htotal.
  injection Htotal as Htotal.
  split; [|now symmetry].
  apply (get_stats_rate s' now st (total_keystrokes st) (isoformat t0) t0 Hst).
  - apply (get_stats_total s' now st Hst).
  - now rewrite Hd.
  - apply fromisoformat_isoformat, Hvalid.
Qed.

Lemma X17_witness :
  duration_hours
    (snapshot (exec (press_all [(KeyCode "a", a_time); (SpecialKey "enter", a_time)])
                    (set_data (fresh_data a_time) a_monitor))
              an_hour_later)
  = PrimFloat.div (total_seconds (datetime_sub an_hour_later a_time)) 3600%float /\
  total_keystrokes
    (snapshot (exec (press_all [(KeyCode "a", a_time); (SpecialKey "enter", a_time)])
                    (set_data (fresh_data a_time) a_monitor))
              an_hour_later)
  = VInt (Z.of_nat (List.length [(KeyCode "a", a_time); (SpecialKey "enter", a_time)])).
Proof.
  apply (X17_snapshot_counts_from_the_creation a_monitor a_time an_hour_later
           [(KeyCode "a", a_time); (SpecialKey "enter", a_time)]); reflexivity.
Defined.
